(** * The consensus message processor (internal/pkg/consensus/processor.go)

    A shallow embedding of the state-transition processor: message
    application, address resolution, the read-only query entry points and
    the error classification, followed by the properties of the
    specification that concern them.

    The processor is glue code around collaborators that live in other
    packages (the state tree, the VM, the message validator, the gas
    tracker).  Go objects that are shared through pointers (cached trees,
    gas trackers) live in an explicit store; every call that leaves the
    file is recorded in a call log, so that "no state access" and "the VM
    is not invoked" are statements about that log. *)

From Stdlib Require Import ZArith Lia.
From stdpp Require Import base option list strings gmap pretty.

Local Open Scope Z_scope.

(** ** Package [address] *)

Module address.

(** Modelled from the spec: the address type (package address is not in
    this file): a tagged union over protocols, one variant of which, ID,
    is a numeric identity usable as a state-tree key. *)
Inductive Protocol := ID | SECP256K1 | Actor | BLS | Unknown.

Inductive Address :=
| Undef
| IDAddr (id : N)
| KeyAddr (p : Protocol) (payload : N).

Definition protocol (a : Address) : Protocol :=
  match a with
  | Undef => Unknown
  | IDAddr _ => ID
  | KeyAddr p _ => p
  end.

(** The reserved init actor has a fixed ID address. *)
Definition InitAddress : Address := IDAddr 0.

#[global] Instance Protocol_eq_dec : EqDecision Protocol.
Proof. solve_decision. Defined.

#[global] Instance Address_eq_dec : EqDecision Address.
Proof. solve_decision. Defined.

Definition Protocol_code (p : Protocol) : N :=
  match p with ID => 0 | SECP256K1 => 1 | Actor => 2 | BLS => 3 | Unknown => 255 end%N.

Definition Protocol_of_code (n : N) : Protocol :=
  match n with 0 => ID | 1 => SECP256K1 | 2 => Actor | 3 => BLS | _ => Unknown end%N.

#[global] Instance Address_countable : Countable Address.
Proof.
  refine (inj_countable'
    (fun a => match a with
              | Undef => inl tt
              | IDAddr n => inr (inl n)
              | KeyAddr p n => inr (inr (Protocol_code p, n))
              end)
    (fun s => match s with
              | inl _ => Undef
              | inr (inl n) => IDAddr n
              | inr (inr (c, n)) => KeyAddr (Protocol_of_code c) n
              end) _).
  intros [| n | [] n]; reflexivity.
Defined.

End address.

Export address(Address, Undef, IDAddr, KeyAddr).

(** ** Package [errors] *)

Module errors.

(** The error variables declared by the processor (lines 103-118).  Each
    is one allocation, and the classifiers compare against them by
    identity, so each is a constructor of its own. *)
Inductive sentinel :=
| FromAccountNotFound
| GasAboveBlockLimit
| GasPriceZero
| GasTooHighForCurrentBlock
| NonceTooHigh
| NonceTooLow
| NonAccountActor
| NegativeValue
| InsufficientGas
| InvalidSignature
| SelfSend.

(** A Go [error] interface value.  [nil_error] is the nil interface.
    Modelled from the spec: the three classes of failure of package
    errors (not in this file): faults, permanent and temporary apply
    errors, each possibly wrapping a cause; [Revert] is a revert error
    allocated outside the processor, [Table] an entry of the table
    [errors.Errors]. *)
Inductive error :=
| nil_error
| Processor (s : sentinel)
| Table (key : N)
| Revert (msg : string)
| Fault (cause : error) (msg : string)
| ApplyPermanent (cause : error) (msg : string)
| ApplyTemporary (cause : error) (msg : string)
| ActorNotFound (a : Address)
| Foreign (msg : string).

#[global] Instance sentinel_eq_dec : EqDecision sentinel.
Proof. solve_decision. Defined.

#[global] Instance error_eq_dec : EqDecision error.
Proof. solve_decision. Defined.

(** The texts the processor gives its error variables. *)
Definition message (s : sentinel) : string :=
  match s with
  | FromAccountNotFound => "from (sender) account not found"
  | GasAboveBlockLimit => "message gas limit above block gas limit"
  | GasPriceZero => "message gas price is zero"
  | GasTooHighForCurrentBlock => "message gas limit too high for current block"
  | NonceTooHigh => "nonce too high"
  | NonceTooLow => "nonce too low"
  | NonAccountActor => "message from non-account actor"
  | NegativeValue => "negative value"
  | InsufficientGas => "balance insufficient to cover transfer+gas"
  | InvalidSignature => "invalid signature by sender over message data"
  | SelfSend => "cannot send to self"
  end.

(** The key of the "cannot transfer negative value" entry; the key type
    is an enumeration of package errors, only its identity matters. *)
Definition ErrCannotTransferNegativeValue : N := 0%N.

Definition Errors (key : N) : error := Table key.

Definition NewFaultError (msg : string) : error := Fault nil_error msg.
Definition FaultErrorWrap (err : error) (msg : string) : error := Fault err msg.
Definition FaultErrorWrapf (err : error) (msg : string) : error := Fault err msg.
Definition ApplyErrorPermanentWrapf (err : error) (msg : string) : error :=
  ApplyPermanent err msg.

Definition IsFault (err : error) : bool :=
  match err with Fault _ _ => true | _ => false end.

Definition IsApplyErrorPermanent (err : error) : bool :=
  match err with ApplyPermanent _ _ => true | _ => false end.

Definition IsApplyErrorTemporary (err : error) : bool :=
  match err with ApplyTemporary _ _ => true | _ => false end.

End errors.

Export errors(error, nil_error).

(** ** Package [types] *)

Module types.

(** Gas is counted in unsigned 64-bit units, token amounts are big
    integers. *)
Definition GasUnits := N.
Definition AttoFIL := Z.
Definition MethodID := N.
Definition BlockHeight := N.
Definition bytes := list Byte.byte.

Definition ZeroAttoFIL : AttoFIL := 0.

Record UnsignedMessage := {
  To : Address;
  From : Address;
  CallSeqNum : N;
  Value : AttoFIL;
  Method : MethodID;
  Params : bytes;
  GasPrice : AttoFIL;
  GasLimit : GasUnits;
}.

Record MessageReceipt := {
  ExitCode : N;
  Return : list bytes;
  GasAttoFIL : AttoFIL;
}.

Definition NewBlockHeight (h : N) : BlockHeight := h.

(** The conversion [int64(x)] of an unsigned 64-bit [x]: the same bits,
    read as a signed number. *)
Definition int64 (x : GasUnits) : Z := (Z.of_N x + 2 ^ 63) mod 2 ^ 64 - 2 ^ 63.

Definition MulBigInt (a : AttoFIL) (x : Z) : AttoFIL := a * x.

End types.

(** ** Package [actor] *)

Module actor.

(** Modelled from the spec: the actor record (package actor is not in
    this file): a code identifier, a balance, a reference to the embedded
    state and the sequence number recorded for the actor as a sender. *)
Record Actor := {
  Code : N;
  Head : N;
  CallSeqNum : N;
  Balance : types.AttoFIL;
}.

End actor.

(** ** Package [block] *)

Module block.

Record Block := {
  Height : N;
  Ticket : N;
}.

(** Modelled from the spec: the tip-set and its height (package block is
    not in this file): the blocks of a tip-set share one height, and an
    empty tip-set has none. *)
Definition TipSet := list Block.

Definition errUndefTipSet : error := errors.Foreign "undefined tipset".

Definition TipSet_Height (ts : TipSet) : N * error :=
  match ts with
  | [] => (0%N, errUndefTipSet)
  | b :: _ => (Height b, nil_error)
  end.

End block.

(** ** Package [state] *)

Module state.

(** The interface [state.Tree]: a key to actor mapping that can fail. *)
Class Tree (T : Type) := {
  GetActor : T -> Address -> option actor.Actor * error;
  SetActor : T -> Address -> actor.Actor -> T;
}.

Definition IsActorNotFoundError (err : error) : bool :=
  match err with errors.ActorNotFound _ => true | _ => false end.

(** Modelled from the spec: the cached tree (its code is not in this
    file) is an overlay on a base tree: reads fall through to the base,
    writes are buffered in [cache], and nothing reaches the base before an
    explicit commit. *)
Record CachedTree := {
  cache : gmap Address actor.Actor;
}.

Definition emptyCache : CachedTree := {| cache := ∅ |}.

Definition read {T} `{!Tree T} (base : T) (c : CachedTree) (a : Address)
  : option actor.Actor * error :=
  match cache c !! a with
  | Some act => (Some act, nil_error)
  | None => GetActor base a
  end.

Definition commit {T} `{!Tree T} (base : T) (c : CachedTree) : T :=
  foldr (fun kv t => SetActor t kv.1 kv.2) base (map_to_list (cache c)).

(** A tree held in memory: a finite map that cannot fail otherwise than by
    not having the actor. *)
#[global] Instance gmap_Tree : Tree (gmap Address actor.Actor) := {|
  GetActor t a :=
    match t !! a with
    | Some act => (Some act, nil_error)
    | None => (None, errors.ActorNotFound a)
    end;
  SetActor t a act := <[a := act]> t;
|}.

End state.

(** ** Package [vm]: data *)

Module vm.

(** Modelled from the spec: the gas tracker (its code is not in this
    file): per-message counters (limit, used) next to the gas already
    consumed in the block; the block-level limit is the constant
    [BlockGasLimit].  A message is above the block limit when its limit
    exceeds the block's total capacity, and too high for the current block
    when it exceeds what remains of it.  Charging never takes the used
    gas past the message's limit. *)
Record LegacyGasTracker := {
  MsgGasLimit : types.GasUnits;
  gasConsumedByBlock : types.GasUnits;
  gasConsumedByMessage : types.GasUnits;
}.

Definition zeroGasTracker : LegacyGasTracker :=
  {| MsgGasLimit := 0%N; gasConsumedByBlock := 0%N;
     gasConsumedByMessage := 0%N |}.

Definition withMsgGasLimit (limit : types.GasUnits) (gt : LegacyGasTracker)
  : LegacyGasTracker :=
  {| MsgGasLimit := limit;
     gasConsumedByBlock := gasConsumedByBlock gt;
     gasConsumedByMessage := gasConsumedByMessage gt |}.

Definition reset (msg : types.UnsignedMessage) (gt : LegacyGasTracker)
  : LegacyGasTracker :=
  {| MsgGasLimit := types.GasLimit msg;
     gasConsumedByBlock := gasConsumedByBlock gt;
     gasConsumedByMessage := 0%N |}.

Definition aboveBlockLimit (blockGasLimit : types.GasUnits)
  (gt : LegacyGasTracker) : bool :=
  (blockGasLimit <? MsgGasLimit gt)%N.

Definition tooHighForCurrentBlock (blockGasLimit : types.GasUnits)
  (gt : LegacyGasTracker) : bool :=
  (blockGasLimit <? MsgGasLimit gt + gasConsumedByBlock gt)%N.

Definition charge (gt : LegacyGasTracker) (cost : types.GasUnits)
  : LegacyGasTracker :=
  {| MsgGasLimit := MsgGasLimit gt;
     gasConsumedByBlock := gasConsumedByBlock gt;
     gasConsumedByMessage :=
       N.min (MsgGasLimit gt) (gasConsumedByMessage gt + cost) |}.

(** The actor-code registry [builtin.Actors]. *)
Inductive Actors := DefaultActors | ConfiguredActors (id : N).

(** Pointers into the store of shared objects. *)
Definition ptr := nat.

(** [vm.NewContextParams]; fields a literal leaves out are nil. *)
Record NewContextParams := {
  From : option actor.Actor;
  To : option actor.Actor;
  ToAddr : Address;
  Message : option types.UnsignedMessage;
  OriginMsg : option types.UnsignedMessage;
  State : option ptr;
  GasTracker : option ptr;
  BlockHeight : option types.BlockHeight;
  Ancestors : list block.TipSet;
  Actors_ : option Actors;
}.

(** [vm.NewVMContext] wraps its parameters. *)
Record Context := NewVMContext { params : NewContextParams }.

(** A Go [interface{}] value, as far as the processor builds or inspects
    one. *)
#[warnings="-register-all"]
Inductive value :=
| VNil
| VCid (c : N)
| VAddr (a : Address)
| VBigInt (z : Z)
| VList (l : list value)
| VOther (tag : N).

(** [Uint64] of a big integer: the low 64 bits of the magnitude. *)
Definition Uint64 (z : Z) : N := Z.to_N (Z.abs z mod 2 ^ 64).

Record BlockMessagesInfo := {
  BLSMessages : list types.UnsignedMessage;
  SECPMessages : list types.UnsignedMessage;
  Miner : Address;
}.

(** What the VM sees of the store during a call: the base tree, the
    cached tree and gas tracker of its context, and the storage map. *)
Record View (T S : Type) := {
  v_base : T;
  v_cache : state.CachedTree;
  v_gas : LegacyGasTracker;
  v_storage : S;
}.

(** What a call into the VM leaves behind: its Go results, the cached
    tree and storage map as written by the call, and the gas it charged,
    charge by charge. *)
Record Reply (S R : Type) := {
  r_result : R;
  r_cache : state.CachedTree;
  r_storage : S;
  r_charges : list types.GasUnits;
}.

End vm.

Arguments vm.v_base {T S}.
Arguments vm.v_cache {T S}.
Arguments vm.v_gas {T S}.
Arguments vm.v_storage {T S}.
Arguments vm.Build_View {T S}.
Arguments vm.r_result {S R}.
Arguments vm.r_cache {S R}.
Arguments vm.r_storage {S R}.
Arguments vm.r_charges {S R}.
Arguments vm.Build_Reply {S R}.

(** ** Collaborators, the store and the call log *)

(** What the processor takes from other packages and this development
    leaves open: constants, pure helpers, and the behaviour of the VM and
    of the init actor's lookup as functions of the part of the store they
    are handed.  A VM call reads and writes state through the cached tree
    of its context only, and meters gas by charging the gas tracker of its
    context. *)
Class Collaborators (T S : Type) := {
  BlockGasLimit : types.GasUnits;
  ExecMethodID : types.MethodID;
  GetActorIDForAddressMethodID : types.MethodID;
  AccountActorCodeCid : N;
  NewIDAddress : N -> Address * error;
  CodeError : error -> N;
  LookupIDAddress :
    vm.Context -> Address -> T -> state.CachedTree -> S -> N * bool * error;
  Send :
    vm.Context -> vm.View T S -> vm.Reply S (list types.bytes * N * error);
  Context_Send :
    vm.Context -> Address -> types.MethodID -> types.AttoFIL ->
    list vm.value -> vm.View T S -> vm.Reply S vm.value;
  ApplyTipSetMessages :
    list vm.BlockMessagesInfo -> types.BlockHeight -> T -> S ->
    list types.MessageReceipt * error * T * S;
}.

(** The interface [MessageValidator] and the processor that holds one. *)
Record MessageValidator := {
  Validate : types.UnsignedMessage -> option actor.Actor -> error;
}.

Record DefaultProcessor := {
  validator : MessageValidator;
  actors : vm.Actors;
}.

Definition NewConfiguredProcessor (v : MessageValidator) (a : vm.Actors)
  : DefaultProcessor :=
  {| validator := v; actors := a |}.

(** Calls that leave the file, as the log records them.  A call into the
    VM is recorded with the gas tracker of its context as it stood when
    the call was made. *)
Inductive Call :=
| TreeGetActor (a : Address)
| CachedGetActor (st : vm.ptr) (a : Address)
| CachedCommit (st : vm.ptr)
| InitLookupIDAddress (ctx : vm.Context) (a : Address)
| ValidatorValidate (msg : types.UnsignedMessage) (from : option actor.Actor)
| VmSend (ctx : vm.Context) (gas : vm.LegacyGasTracker)
| VmContextSend (ctx : vm.Context) (to : Address) (method : types.MethodID)
    (val : types.AttoFIL) (args : list vm.value) (gas : vm.LegacyGasTracker)
| VmNewVM
| VmApplyTipSetMessages (msgs : list vm.BlockMessagesInfo)
    (epoch : types.BlockHeight).

(** The world a processor call runs in.  [base] is the state tree [st]
    and [storage] the storage map [vms] that the entry points receive;
    cached trees and gas trackers are Go objects behind pointers. *)
Record World (T S : Type) := {
  base : T;
  storage : S;
  cachedTrees : list state.CachedTree;
  gasTrackers : list vm.LegacyGasTracker;
  calls : list Call;
}.

Arguments base {T S}.
Arguments storage {T S}.
Arguments cachedTrees {T S}.
Arguments gasTrackers {T S}.
Arguments calls {T S}.
Arguments Build_World {T S}.

(** A Go function body: it runs in a world and either returns, leaving a
    world behind, or panics on a nil or dangling pointer. *)
Inductive Outcome (W A : Type) :=
| Done (a : A) (w : W)
| Panic.

Arguments Done {W A}.
Arguments Panic {W A}.

Definition Go (W A : Type) := W -> Outcome W A.

Definition ret {W A} (a : A) : Go W A := fun w => Done a w.

Definition bind {W A B} (m : Go W A) (f : A -> Go W B) : Go W B :=
  fun w => match m w with Done a w' => f a w' | Panic => Panic end.

Notation "'let*' x ':=' m 'in' k" := (bind m (fun x => k))
  (at level 10, x pattern, m at level 100, k at level 200).

Definition isNil (err : error) : bool := bool_decide (err = nil_error).
Definition notNil (err : error) : bool := negb (isNil err).

(** ** The store and the collaborators as Go calls *)

Section Processor.

Context {T S : Type} `{!state.Tree T} `{!Collaborators T S}.

Abbreviation M := (Go (World T S)).

Definition panic {A} : M A := fun _ => Panic.

Definition logged (c : Call) (w : World T S) : World T S :=
  {| base := base w; storage := storage w; cachedTrees := cachedTrees w;
     gasTrackers := gasTrackers w; calls := calls w ++ [c] |}.

Definition log (c : Call) : M unit := fun w => Done tt (logged c w).

(** [state.NewCachedTree(st)]: a new overlay on the base tree, with
    nothing buffered. *)
Definition NewCachedTree : M vm.ptr := fun w =>
  Done (length (cachedTrees w))
    {| base := base w; storage := storage w;
       cachedTrees := cachedTrees w ++ [state.emptyCache];
       gasTrackers := gasTrackers w; calls := calls w |}.

(** [vm.NewLegacyGasTracker()]. *)
Definition NewLegacyGasTracker : M vm.ptr := fun w =>
  Done (length (gasTrackers w))
    {| base := base w; storage := storage w; cachedTrees := cachedTrees w;
       gasTrackers := gasTrackers w ++ [vm.zeroGasTracker];
       calls := calls w |}.

Definition loadGas (gt : vm.ptr) : M vm.LegacyGasTracker := fun w =>
  match gasTrackers w !! gt with
  | Some g => Done g w
  | None => Panic
  end.

Definition storeGas (gt : vm.ptr) (g : vm.LegacyGasTracker) : M unit := fun w =>
  match gasTrackers w !! gt with
  | Some _ =>
      Done tt
        {| base := base w; storage := storage w; cachedTrees := cachedTrees w;
           gasTrackers := <[gt := g]> (gasTrackers w); calls := calls w |}
  | None => Panic
  end.

(** [gasTracker.MsgGasLimit = limit]. *)
Definition SetMsgGasLimit (gt : vm.ptr) (limit : types.GasUnits) : M unit :=
  let* g := loadGas gt in storeGas gt (vm.withMsgGasLimit limit g).

Definition ResetForNewMessage (gt : vm.ptr) (msg : types.UnsignedMessage)
  : M unit :=
  let* g := loadGas gt in storeGas gt (vm.reset msg g).

Definition GasAboveBlockLimit (gt : vm.ptr) : M bool :=
  let* g := loadGas gt in ret (vm.aboveBlockLimit BlockGasLimit g).

Definition GasTooHighForCurrentBlock (gt : vm.ptr) : M bool :=
  let* g := loadGas gt in ret (vm.tooHighForCurrentBlock BlockGasLimit g).

(** [st.GetActor] on the base tree. *)
Definition Tree_GetActor (a : Address) : M (option actor.Actor * error) :=
  fun w => Done (state.GetActor (base w) a) (logged (TreeGetActor a) w).

(** [st.GetActor] on a cached tree. *)
Definition CachedTree_GetActor (st : vm.ptr) (a : Address)
  : M (option actor.Actor * error) := fun w =>
  match cachedTrees w !! st with
  | Some c => Done (state.read (base w) c a) (logged (CachedGetActor st a) w)
  | None => Panic
  end.

(** [st.Commit] on a cached tree: the one operation that carries buffered
    writes to the base tree.  The processor never calls it. *)
Definition CachedTree_Commit (st : vm.ptr) : M unit := fun w =>
  match cachedTrees w !! st with
  | Some c =>
      Done tt
        {| base := state.commit (base w) c; storage := storage w;
           cachedTrees := cachedTrees w; gasTrackers := gasTrackers w;
           calls := calls w ++ [CachedCommit st] |}
  | None => Panic
  end.

(** [initactor.LookupIDAddress(vmCtx, addr)] reads through the cached
    tree of its context. *)
Definition initactor_LookupIDAddress (ctx : vm.Context) (addr : Address)
  : M (N * bool * error) := fun w =>
  match vm.State (vm.params ctx) with
  | Some st =>
      match cachedTrees w !! st with
      | Some c =>
          Done (LookupIDAddress ctx addr (base w) c (storage w))
            (logged (InitLookupIDAddress ctx addr) w)
      | None => Panic
      end
  | None => Panic
  end.

(** The part of the store a VM call is handed. *)
Definition view (ctx : vm.Context) : M (vm.ptr * vm.ptr * vm.View T S) :=
  fun w =>
  match vm.State (vm.params ctx), vm.GasTracker (vm.params ctx) with
  | Some st, Some gt =>
      match cachedTrees w !! st, gasTrackers w !! gt with
      | Some c, Some g =>
          Done (st, gt, {| vm.v_base := base w; vm.v_cache := c;
                           vm.v_gas := g; vm.v_storage := storage w |}) w
      | _, _ => Panic
      end
  | _, _ => Panic
  end.

(** What a VM call leaves in the store: the cached tree and the storage
    map as the call wrote them, and the gas tracker after its charges. *)
Definition absorb {R} (st gt : vm.ptr) (v : vm.View T S) (r : vm.Reply S R)
  : M R := fun w =>
  Done (vm.r_result r)
    {| base := base w; storage := vm.r_storage r;
       cachedTrees := <[st := vm.r_cache r]> (cachedTrees w);
       gasTrackers :=
         <[gt := foldl vm.charge (vm.v_gas v) (vm.r_charges r)]> (gasTrackers w);
       calls := calls w |}.

(** [vm.Send(ctx, vmCtx)]. *)
Definition vm_Send (ctx : vm.Context) : M (list types.bytes * N * error) :=
  let* (st, gt, v) := view ctx in
  let* _ := log (VmSend ctx (vm.v_gas v)) in
  absorb st gt v (Send ctx v).

(** [vmctx.Send(to, method, value, params)]. *)
Definition vmctx_Send (ctx : vm.Context) (to : Address)
  (method : types.MethodID) (val : types.AttoFIL) (args : list vm.value)
  : M vm.value :=
  let* (st, gt, v) := view ctx in
  let* _ := log (VmContextSend ctx to method val args (vm.v_gas v)) in
  absorb st gt v (Context_Send ctx to method val args v).

(** [vmCtx.GasUnits()]: the gas the message has used so far. *)
Definition GasUnits (ctx : vm.Context) : M types.GasUnits :=
  match vm.GasTracker (vm.params ctx) with
  | Some gt => let* g := loadGas gt in ret (vm.gasConsumedByMessage g)
  | None => panic
  end.

(** [p.validator.Validate(ctx, msg, fromActor)]. *)
Definition validator_Validate (p : DefaultProcessor)
  (msg : types.UnsignedMessage) (fromActor : option actor.Actor) : M error :=
  let* _ := log (ValidatorValidate msg fromActor) in
  ret (Validate (validator p) msg fromActor).

(** [vm.NewVM(st, vms)] followed by [vm.ApplyTipSetMessages]; this is the
    call that applies messages to the base tree. *)
Definition NewVM : M unit := log VmNewVM.

Definition vm_ApplyTipSetMessages (msgs : list vm.BlockMessagesInfo)
  (epoch : types.BlockHeight) : M (list types.MessageReceipt * error) :=
  fun w =>
  let '(results, err, t, s) := ApplyTipSetMessages msgs epoch (base w) (storage w) in
  Done (results, err)
    {| base := t; storage := s; cachedTrees := cachedTrees w;
       gasTrackers := gasTrackers w;
       calls := calls w ++ [VmApplyTipSetMessages msgs epoch] |}.

(** ** The processor (processor.go) *)

(** ProcessTipSet, lines 87-101. *)
Definition ProcessTipSet (p : DefaultProcessor) (ts : block.TipSet)
  (msgs : list vm.BlockMessagesInfo) : M (list types.MessageReceipt * error) :=
  let '(h, err) := block.TipSet_Height ts in
  if notNil err then
    ret ([], errors.FaultErrorWrap err "processing empty tipset")
  else
    let epoch := types.NewBlockHeight h in
    let* _ := NewVM in
    vm_ApplyTipSetMessages msgs epoch.

(** The error variables of lines 103-118. *)
Definition errFromAccountNotFound := errors.Processor errors.FromAccountNotFound.
Definition errGasAboveBlockLimit := errors.Processor errors.GasAboveBlockLimit.
Definition errGasPriceZero := errors.Processor errors.GasPriceZero.
Definition errGasTooHighForCurrentBlock :=
  errors.Processor errors.GasTooHighForCurrentBlock.
Definition errNonceTooHigh := errors.Processor errors.NonceTooHigh.
Definition errNonceTooLow := errors.Processor errors.NonceTooLow.
Definition errNonAccountActor := errors.Processor errors.NonAccountActor.
Definition errNegativeValue := errors.Processor errors.NegativeValue.
Definition errInsufficientGas := errors.Processor errors.InsufficientGas.
Definition errInvalidSignature := errors.Processor errors.InvalidSignature.
Definition errSelfSend := errors.Processor errors.SelfSend.

(** blockGasLimitError, lines 373-380. *)
Definition blockGasLimitError (gasTracker : vm.ptr) : M error :=
  let* above := GasAboveBlockLimit gasTracker in
  if above then ret errGasAboveBlockLimit
  else
    let* tooHigh := GasTooHighForCurrentBlock gasTracker in
    if tooHigh then ret errGasTooHighForCurrentBlock
    else ret nil_error.

(** isTemporaryError, lines 382-386. *)
Definition isTemporaryError (err : error) : bool :=
  bool_decide (err = errFromAccountNotFound) ||
  bool_decide (err = errNonceTooHigh) ||
  bool_decide (err = errGasTooHighForCurrentBlock).

(** isPermanentError, lines 388-397. *)
Definition isPermanentError (err : error) : bool :=
  bool_decide (err = errInsufficientGas) ||
  bool_decide (err = errSelfSend) ||
  bool_decide (err = errInvalidSignature) ||
  bool_decide (err = errNonceTooLow) ||
  bool_decide (err = errNonAccountActor) ||
  bool_decide (err = errNegativeValue) ||
  bool_decide (err = errors.Errors errors.ErrCannotTransferNegativeValue) ||
  bool_decide (err = errGasAboveBlockLimit).

(** The context ResolveAddress builds for the lookup, lines 307-312. *)
Definition lookupContext (init : option actor.Actor) (st : vm.ptr) : vm.Context :=
  vm.NewVMContext
    {| vm.From := None; vm.To := init; vm.ToAddr := address.InitAddress;
       vm.Message := None; vm.OriginMsg := None; vm.State := Some st;
       vm.GasTracker := None; vm.BlockHeight := None; vm.Ancestors := [];
       vm.Actors_ := None |}.

(** ResolveAddress, lines 297-329.  The gas tracker [gt] is received and
    not used: the context built for the lookup has none. *)
Definition ResolveAddress (addr : Address) (st : vm.ptr) (gt : vm.ptr)
  : M (Address * bool * error) :=
  if bool_decide (address.protocol addr = address.ID) then
    ret (addr, true, nil_error)
  else
    let* (init, err) := CachedTree_GetActor st address.InitAddress in
    if notNil err then ret (Undef, false, err)
    else
      let vmCtx := lookupContext init st in
      let* (id, found, err) := initactor_LookupIDAddress vmCtx addr in
      if notNil err then ret (Undef, false, err)
      else if negb found then ret (Undef, false, nil_error)
      else
        let '(idAddr, err) := NewIDAddress id in
        if notNil err then ret (Undef, false, err)
        else ret (idAddr, true, nil_error).

(** The context getOrCreateActor builds for its calls to the init actor,
    lines 431 and 434. *)
Definition provisioningContext (initAct : option actor.Actor) (st noopGT : vm.ptr)
  : vm.Context :=
  vm.NewVMContext
    {| vm.From := None; vm.To := initAct; vm.ToAddr := Undef;
       vm.Message := None; vm.OriginMsg := None; vm.State := Some st;
       vm.GasTracker := Some noopGT; vm.BlockHeight := None;
       vm.Ancestors := []; vm.Actors_ := Some vm.DefaultActors |}.

(** getOrCreateActor, lines 411-449. *)
Definition getOrCreateActor (st : vm.ptr) (addr : Address) (gt : vm.ptr)
  : M (option actor.Actor * Address * error) :=
  let* (idAddr, found, err) := ResolveAddress addr st gt in
  if notNil err then ret (None, Undef, err)
  else if found then
    let* (act, err) := CachedTree_GetActor st idAddr in
    ret (act, idAddr, err)
  else
    let* (initAct, err) := CachedTree_GetActor st address.InitAddress in
    if notNil err then ret (None, Undef, err)
    else
      let* noopGT := NewLegacyGasTracker in
      let* _ := SetMsgGasLimit noopGT 10000%N in
      let vmctx := provisioningContext initAct st noopGT in
      let* _ := vmctx_Send vmctx address.InitAddress ExecMethodID
                  types.ZeroAttoFIL
                  [vm.VCid AccountActorCodeCid; vm.VList [vm.VAddr addr]] in
      let vmctx := provisioningContext initAct st noopGT in
      let* idAddrInt := vmctx_Send vmctx address.InitAddress
                          GetActorIDForAddressMethodID types.ZeroAttoFIL
                          [vm.VAddr addr] in
      match idAddrInt with
      | vm.VBigInt id =>
          let '(idAddr, err) := NewIDAddress (vm.Uint64 id) in
          if notNil err then ret (None, Undef, err)
          else
            let* (act, err) := CachedTree_GetActor st idAddr in
            ret (act, idAddr, err)
      | _ =>
          ret (None, Undef,
               errors.NewFaultError "non-integer return from GetActorIDForAddress")
      end.

(** The message the two query entry points build, lines 127-134 and
    178-185; the gas price and limit are left at their zero values. *)
Definition queryMessage (to : Address) (method : types.MethodID)
  (params : types.bytes) (from : Address) : types.UnsignedMessage :=
  {| types.From := from; types.To := to; types.CallSeqNum := 0%N;
     types.Value := types.ZeroAttoFIL; types.Method := method;
     types.Params := params; types.GasPrice := 0; types.GasLimit := 0%N |}.

(** The context of the two query entry points, lines 155-165 and
    197-207. *)
Definition queryContext (p : DefaultProcessor) (toActor : option actor.Actor)
  (toAddr : Address) (msg : types.UnsignedMessage) (cachedSt gasTracker : vm.ptr)
  (optBh : option types.BlockHeight) : vm.Context :=
  vm.NewVMContext
    {| vm.From := None; vm.To := toActor; vm.ToAddr := toAddr;
       vm.Message := Some msg; vm.OriginMsg := Some msg;
       vm.State := Some cachedSt; vm.GasTracker := Some gasTracker;
       vm.BlockHeight := optBh; vm.Ancestors := [];
       vm.Actors_ := Some (actors p) |}.

(** CallQueryMethod, lines 123-170. *)
Definition CallQueryMethod (p : DefaultProcessor) (to : Address)
  (method : types.MethodID) (params : types.bytes) (from : Address)
  (optBh : option types.BlockHeight) : M (list types.bytes * N * error) :=
  let* cachedSt := NewCachedTree in
  let msg := queryMessage to method params from in
  let* gasTracker := NewLegacyGasTracker in
  let* _ := SetMsgGasLimit gasTracker BlockGasLimit in
  let* (toAddr, found, err) := ResolveAddress (types.To msg) cachedSt gasTracker in
  if notNil err then
    ret ([], 1%N, errors.FaultErrorWrapf err "Could not resolve actor address")
  else if negb found then
    ret ([], 1%N, errors.ApplyErrorPermanentWrapf err "failed to resolve To actor")
  else
    let* (toActor, err) := Tree_GetActor toAddr in
    if notNil err then
      ret ([], 1%N, errors.ApplyErrorPermanentWrapf err "failed to get To actor")
    else
      let vmCtx := queryContext p toActor toAddr msg cachedSt gasTracker optBh in
      vm_Send vmCtx.

(** PreviewQueryMethod, lines 174-212. *)
Definition PreviewQueryMethod (p : DefaultProcessor) (to : Address)
  (method : types.MethodID) (params : types.bytes) (from : Address)
  (optBh : option types.BlockHeight) : M (types.GasUnits * error) :=
  let* cachedSt := NewCachedTree in
  let msg := queryMessage to method params from in
  let* gasTracker := NewLegacyGasTracker in
  let* _ := SetMsgGasLimit gasTracker BlockGasLimit in
  let* (toActor, toAddr, err) := getOrCreateActor cachedSt (types.To msg) gasTracker in
  if notNil err then
    ret (0%N, errors.FaultErrorWrap err "failed to get To actor")
  else
    let vmCtx := queryContext p toActor toAddr msg cachedSt gasTracker optBh in
    let* (_, _, err) := vm_Send vmCtx in
    let* units := GasUnits vmCtx in
    ret (units, err).

(** The receipt of a message that is turned away before execution. *)
Definition rejectionReceipt (err : error) : types.MessageReceipt :=
  {| types.ExitCode := CodeError err; types.Return := [];
     types.GasAttoFIL := types.ZeroAttoFIL |}.

(** The last steps of attemptApplyMessage, lines 257-293: resolve or
    create the receiver, execute, and settle the receipt. *)
Definition execute (p : DefaultProcessor) (st : vm.ptr)
  (msg : types.UnsignedMessage) (bh : option types.BlockHeight)
  (gasTracker : vm.ptr) (ancestors : list block.TipSet)
  (fromActor : option actor.Actor) : M (option types.MessageReceipt * error) :=
  let* (toActor, toAddr, err) := getOrCreateActor st (types.To msg) gasTracker in
  if notNil err then
    ret (None, errors.FaultErrorWrap err "failed to get To actor")
  else
    let vmCtx := vm.NewVMContext
      {| vm.From := fromActor; vm.To := toActor; vm.ToAddr := toAddr;
         vm.Message := Some msg; vm.OriginMsg := Some msg;
         vm.State := Some st; vm.GasTracker := Some gasTracker;
         vm.BlockHeight := bh; vm.Ancestors := ancestors;
         vm.Actors_ := Some (actors p) |} in
    let* (ret_, exitCode, vmErr) := vm_Send vmCtx in
    if errors.IsFault vmErr then ret (None, vmErr)
    else
      let* units := GasUnits vmCtx in
      let gasCharge :=
        types.MulBigInt (types.GasPrice msg) (types.int64 units) in
      let receipt :=
        {| types.ExitCode := exitCode; types.Return := [] ++ ret_;
           types.GasAttoFIL := gasCharge |} in
      ret (Some receipt, vmErr).

(** attemptApplyMessage, lines 219-294; its last steps are [execute]. *)
Definition attemptApplyMessage (p : DefaultProcessor) (st : vm.ptr)
  (msg : types.UnsignedMessage) (bh : option types.BlockHeight)
  (gasTracker : vm.ptr) (ancestors : list block.TipSet)
  : M (option types.MessageReceipt * error) :=
  let* _ := ResetForNewMessage gasTracker msg in
  let* err := blockGasLimitError gasTracker in
  if notNil err then ret (Some (rejectionReceipt err), err)
  else
    let* (fromAddr, found, err) := ResolveAddress (types.From msg) st gasTracker in
    if notNil err then
      ret (None, errors.FaultErrorWrapf err "Could not resolve actor address")
    else if negb found then
      ret (Some (rejectionReceipt err), errFromAccountNotFound)
    else
      let* (fromActor, err) := CachedTree_GetActor st fromAddr in
      if state.IsActorNotFoundError err then
        ret (Some (rejectionReceipt err), errFromAccountNotFound)
      else if notNil err then
        ret (None, errors.FaultErrorWrapf err "failed to get From actor")
      else
        let* err := validator_Validate p msg fromActor in
        if notNil err then ret (Some (rejectionReceipt err), err)
        else execute p st msg bh gasTracker ancestors fromActor.

(** ApplyMessageResult, lines 39-52. *)
Record ApplicationResult := {
  Receipt : option types.MessageReceipt;
  ExecutionError : error;
}.

Record ApplyMessageResult := {
  Application : ApplicationResult;
  Failure : error;
  FailureIsPermanent : bool;
}.

(** ApplyMessagesAndPayRewards, lines 334-364: the reward payment and the
    loop over the messages are commented out in the source; what is left
    returns the results it never filled and an error. *)
Definition ApplyMessagesAndPayRewards (p : DefaultProcessor)
  (messages : list types.UnsignedMessage) (minerOwnerAddr : Address)
  (bh : option types.BlockHeight) (ancestors : list block.TipSet)
  : M (list ApplyMessageResult * error) :=
  let results : list ApplyMessageResult := [] in
  ret (results, errors.Foreign "re-write or delete").

(** ApplyMessageDirect, lines 368-371. *)
Definition ApplyMessageDirect (from to : Address) (nonce : N)
  (val : types.AttoFIL) (method : types.MethodID) (params : list vm.value)
  : M (types.bytes * error) :=
  ret ([], nil_error).

(** directMessageValidator, lines 451-457. *)
Definition directMessageValidator : MessageValidator :=
  {| Validate _ _ := nil_error |}.

End Processor.

(** ** The default validator *)

(** Modelled from the spec: the nonce rule of the default message
    validator (its code is not in this file): a nonce strictly below the
    sequence number recorded for the sender is "nonce too low", a nonce
    strictly above it is "nonce too high", an equal nonce passes. *)
Definition checkNonce (msg : types.UnsignedMessage) (fromActor : actor.Actor)
  : error :=
  if (types.CallSeqNum msg <? actor.CallSeqNum fromActor)%N then errNonceTooLow
  else if (actor.CallSeqNum fromActor <? types.CallSeqNum msg)%N then errNonceTooHigh
  else nil_error.

(** Modelled from the spec: the checks of the default message validator
    other than the nonce rule: the signature of the sender over the
    message is correct, the message is not sent to its own sender, the
    sender is an actor of account type, the value is not negative.  The
    verification of signatures is behind [verify]; [accountCode] is the
    code of account actors.  Each failure has its error variable. *)
Definition checkEnvelope (verify : types.UnsignedMessage -> bool)
  (accountCode : N) (msg : types.UnsignedMessage) (fromActor : actor.Actor)
  : error :=
  if negb (verify msg) then errInvalidSignature
  else if bool_decide (types.From msg = types.To msg) then errSelfSend
  else if negb (actor.Code fromActor =? accountCode)%N then errNonAccountActor
  else if (types.Value msg <? 0)%Z then errNegativeValue
  else nil_error.

(** Modelled from the spec: the default message validator: the checks of
    the envelope, then the nonce rule. *)
Definition defaultMessageValidator (verify : types.UnsignedMessage -> bool)
  (accountCode : N) : MessageValidator :=
  {| Validate msg fromActor :=
       match fromActor with
       | Some a =>
           let err := checkEnvelope verify accountCode msg a in
           if notNil err then err else checkNonce msg a
       | None => errFromAccountNotFound
       end |}.

(** ** What a resolution returns *)

Section Resolution.

Context {T S : Type} `{!state.Tree T} `{!Collaborators T S}.

(** The results of ResolveAddress as a function of the state it reads:
    the base tree, the cached tree behind [st] and the storage map. *)
Definition resolution (addr : Address) (st : vm.ptr) (t : T)
  (c : state.CachedTree) (s : S) : Address * bool * error :=
  if bool_decide (address.protocol addr = address.ID) then (addr, true, nil_error)
  else
    let '(init, err) := state.read t c address.InitAddress in
    if notNil err then (Undef, false, err)
    else
      let '(id, found, err) := LookupIDAddress (lookupContext init st) addr t c s in
      if notNil err then (Undef, false, err)
      else if negb found then (Undef, false, nil_error)
      else
        let '(idAddr, err) := NewIDAddress id in
        if notNil err then (Undef, false, err)
        else (idAddr, true, nil_error).

End Resolution.

(** ** A node held in memory *)

(** A small instance of the collaborators, used to run the processor on
    concrete inputs: the tree is a finite map, the storage map holds the
    init actor's table from addresses to IDs, the init actor hands out IDs
    from 1000 on, and the VM charges a fixed cost per call. *)
Module example.

Definition Tree := gmap Address actor.Actor.
Definition Storage := gmap Address N.

Definition account (seq : N) (balance : Z) : actor.Actor :=
  {| actor.Code := 1%N; actor.Head := 0%N; actor.CallSeqNum := seq;
     actor.Balance := balance |}.

Definition initActor : actor.Actor :=
  {| actor.Code := 0%N; actor.Head := 0%N; actor.CallSeqNum := 0%N;
     actor.Balance := 0 |}.

Definition untouched {R} (r : R) (v : vm.View Tree Storage)
  (charges : list types.GasUnits) : vm.Reply Storage R :=
  {| vm.r_result := r; vm.r_cache := vm.v_cache v;
     vm.r_storage := vm.v_storage v; vm.r_charges := charges |}.

Definition initExec (args : list vm.value) (v : vm.View Tree Storage)
  : vm.Reply Storage vm.value :=
  match args with
  | [vm.VCid _; vm.VList [vm.VAddr a]] =>
      let id := (1000 + N.of_nat (size (vm.v_storage v)))%N in
      {| vm.r_result := vm.VNil;
         vm.r_cache :=
           {| state.cache := <[IDAddr id := account 0 0]> (state.cache (vm.v_cache v)) |};
         vm.r_storage := <[a := id]> (vm.v_storage v);
         vm.r_charges := [1000; 500]%N |}
  | _ => untouched vm.VNil v []
  end.

Definition initGetActorID (args : list vm.value) (v : vm.View Tree Storage)
  : vm.Reply Storage vm.value :=
  match args with
  | [vm.VAddr a] =>
      match vm.v_storage v !! a with
      | Some id => untouched (vm.VBigInt (Z.of_N id)) v [100%N]
      | None => untouched vm.VNil v [100%N]
      end
  | _ => untouched vm.VNil v []
  end.

#[global] Instance collaborators : Collaborators Tree Storage := {|
  BlockGasLimit := 10000000%N;
  ExecMethodID := 1%N;
  GetActorIDForAddressMethodID := 2%N;
  AccountActorCodeCid := 1%N;
  NewIDAddress id := (IDAddr id, nil_error);
  CodeError err := if isNil err then 0%N else 1%N;
  LookupIDAddress _ addr _ _ s :=
    match s !! addr with
    | Some id => (id, true, nil_error)
    | None => (0%N, false, nil_error)
    end;
  Send _ v := untouched ([], 0%N, nil_error) v [7; 5]%N;
  Context_Send _ _ method _ args v :=
    if (method =? 1)%N then initExec args v
    else if (method =? 2)%N then initGetActorID args v
    else untouched vm.VNil v [];
  ApplyTipSetMessages _ _ t s := ([], nil_error, t, s);
|}.

Definition tree : Tree :=
  {[ address.InitAddress := initActor; IDAddr 100 := account 5 1000;
     IDAddr 101 := account 0 0 ]}.

(** A world in which a block is being processed: one cached tree and one
    gas tracker exist, behind the pointers [st] and [gt], and [used] gas is
    already consumed in the block. *)
Definition st : vm.ptr := 0%nat.
Definition gt : vm.ptr := 0%nat.

Definition tracker (used : types.GasUnits) : vm.LegacyGasTracker :=
  {| vm.MsgGasLimit := 0%N; vm.gasConsumedByBlock := used;
     vm.gasConsumedByMessage := 0%N |}.

Definition world (used : types.GasUnits) : World Tree Storage :=
  {| base := tree; storage := ∅; cachedTrees := [state.emptyCache];
     gasTrackers := [tracker used]; calls := [] |}.

(** The processor of the examples: every message is taken to be signed by
    its sender, and account actors have the code 1. *)
Definition processor : DefaultProcessor :=
  NewConfiguredProcessor (defaultMessageValidator (fun _ => true) 1%N)
    vm.DefaultActors.

(** A transfer from the account 100 to the account 101. *)
Definition transfer (nonce : N) (limit : types.GasUnits) : types.UnsignedMessage :=
  {| types.To := IDAddr 101; types.From := IDAddr 100;
     types.CallSeqNum := nonce; types.Value := 10; types.Method := 0%N;
     types.Params := []; types.GasPrice := 3; types.GasLimit := limit |}.

(** A key address that the init actor does not know. *)
Definition unknownKey : Address := KeyAddr address.SECP256K1 7.

(** The block height at which the examples run. *)
Definition height : option types.BlockHeight := Some 1%N.

End example.

Arguments example.tracker used%_N.
Arguments example.world used%_N.
Arguments example.transfer (nonce limit)%_N.

(** ** Vocabulary of the properties *)

Section Vocabulary.

Context {T S : Type} `{!state.Tree T} `{!Collaborators T S}.

(** [appended extra w]: the world [w] after the calls [extra] were logged
    and nothing else happened. *)
Definition appended (extra : list Call) (w : World T S) : World T S :=
  {| base := base w; storage := storage w; cachedTrees := cachedTrees w;
     gasTrackers := gasTrackers w; calls := calls w ++ extra |}.

(** [afterReset gt msg g w]: the world [w] after the gas tracker behind
    [gt], which was [g], is reset for the message [msg]. *)
Definition afterReset (gt : vm.ptr) (msg : types.UnsignedMessage)
  (g : vm.LegacyGasTracker) (w : World T S) : World T S :=
  {| base := base w; storage := storage w; cachedTrees := cachedTrees w;
     gasTrackers := <[gt := vm.reset msg g]> (gasTrackers w);
     calls := calls w |}.

(** [logs ok w w']: between [w] and [w'] calls were logged that all
    satisfy [ok]. *)
Definition logs (ok : Call -> Prop) (w w' : World T S) : Prop :=
  exists extra, calls w' = calls w ++ extra /\ Forall ok extra.

(** A call made on behalf of the resolution of [addr] behind the cached
    tree [st]: a read of the init actor or the init actor's lookup of
    [addr]. *)
Definition resolveCall (st : vm.ptr) (addr : Address) (c : Call) : Prop :=
  match c with
  | CachedGetActor st' a => st' = st /\ a = address.InitAddress
  | InitLookupIDAddress ctx a =>
      vm.State (vm.params ctx) = Some st /\ a = addr
  | _ => False
  end.

(** A read through the cached tree [st]: of an actor record, or by the
    init actor's lookup. *)
Definition readCall (st : vm.ptr) (c : Call) : Prop :=
  match c with
  | CachedGetActor st' _ => st' = st
  | InitLookupIDAddress ctx _ => vm.State (vm.params ctx) = Some st
  | _ => False
  end.

(** The two calls to the init actor that provision [addr], lines 431-435:
    exec of an account actor, then the lookup of the ID it was given. *)
Definition execCall (initAct : option actor.Actor) (st noopGT : vm.ptr)
  (addr : Address) (gas : vm.LegacyGasTracker) : Call :=
  VmContextSend (provisioningContext initAct st noopGT) address.InitAddress
    ExecMethodID types.ZeroAttoFIL
    [vm.VCid AccountActorCodeCid; vm.VList [vm.VAddr addr]] gas.

Definition idLookupCall (initAct : option actor.Actor) (st noopGT : vm.ptr)
  (addr : Address) (gas : vm.LegacyGasTracker) : Call :=
  VmContextSend (provisioningContext initAct st noopGT) address.InitAddress
    GetActorIDForAddressMethodID types.ZeroAttoFIL [vm.VAddr addr] gas.

(** The log of a lookup of [addr] behind [st]: either reads only, or,
    when the actor is provisioned, reads around the two calls to the init
    actor.  Both calls run under the gas tracker behind [noopGT]: the first
    finds it as it was created, with limit 10000 and nothing used, the
    second with the same limit. *)
Definition provisioningLog (st noopGT : vm.ptr) (addr : Address)
  (extra : list Call) : Prop :=
  Forall (readCall st) extra \/
  exists initAct gas reads tail,
    extra = reads
            ++ [execCall initAct st noopGT addr
                  (vm.withMsgGasLimit 10000%N vm.zeroGasTracker);
                idLookupCall initAct st noopGT addr gas]
            ++ tail /\
    Forall (readCall st) reads /\ Forall (readCall st) tail /\
    vm.MsgGasLimit gas = 10000%N.

(** What looking up or provisioning [addr] behind [st] leaves behind: the
    base tree as it was, no cached tree changed but the one behind [st],
    the gas trackers that existed as they were, and a provisioning log
    under a gas tracker that did not exist before. *)
Record provisions (st : vm.ptr) (addr : Address) (w w' : World T S) : Prop := {
  prov_base : base w' = base w;
  prov_trees : exists c', cachedTrees w' = <[st := c']> (cachedTrees w);
  prov_gas : exists new, gasTrackers w' = gasTrackers w ++ new;
  prov_calls :
    exists extra,
      calls w' = calls w ++ extra /\
      provisioningLog st (length (gasTrackers w)) addr extra;
}.

(** A call a query makes: a read of the init actor, the init actor's
    lookup of the target, a read of the target's actor record, or the
    execution itself, under a gas tracker whose limit is the block gas
    limit.  There is no call to the validator among them. *)
Definition queryCall (to toAddr : Address) (c : Call) : Prop :=
  match c with
  | CachedGetActor _ a => a = address.InitAddress
  | InitLookupIDAddress _ a => a = to
  | TreeGetActor a => a = toAddr
  | VmSend ctx gas =>
      vm.From (vm.params ctx) = None /\
      vm.ToAddr (vm.params ctx) = toAddr /\
      vm.MsgGasLimit gas = BlockGasLimit
  | _ => False
  end.

(** A call that writes to the base tree. *)
Definition writesBase (c : Call) : Prop :=
  match c with
  | CachedCommit _ | VmApplyTipSetMessages _ _ => True
  | _ => False
  end.

(** A call into the VM. *)
Definition entersVM (c : Call) : Prop :=
  match c with
  | VmSend _ _ | VmContextSend _ _ _ _ _ _
  | VmNewVM | VmApplyTipSetMessages _ _ => True
  | _ => False
  end.

End Vocabulary.
(** ** What the calls into the VM are handed *)

Section Handed.

Context {T S : Type} `{!state.Tree T} `{!Collaborators T S}.

(** The gas tracker of a provisioning, as getOrCreateActor creates it
    (lines 429-430). *)
Definition provisioningTracker : vm.LegacyGasTracker :=
  vm.withMsgGasLimit 10000%N vm.zeroGasTracker.

(** The init actor's reply to the exec of line 432, from the state the
    call is handed. *)
Definition execReply (initAct : option actor.Actor) (st noopGT : vm.ptr)
  (addr : Address) (t : T) (c : state.CachedTree) (s : S)
  : vm.Reply S vm.value :=
  Context_Send (provisioningContext initAct st noopGT) address.InitAddress
    ExecMethodID types.ZeroAttoFIL
    [vm.VCid AccountActorCodeCid; vm.VList [vm.VAddr addr]]
    {| vm.v_base := t; vm.v_cache := c; vm.v_gas := provisioningTracker;
       vm.v_storage := s |}.

(** The init actor's reply to the ID lookup of line 435, which sees what
    the exec left behind. *)
Definition idReply (initAct : option actor.Actor) (st noopGT : vm.ptr)
  (addr : Address) (t : T) (r1 : vm.Reply S vm.value) : vm.Reply S vm.value :=
  Context_Send (provisioningContext initAct st noopGT) address.InitAddress
    GetActorIDForAddressMethodID types.ZeroAttoFIL [vm.VAddr addr]
    {| vm.v_base := t; vm.v_cache := vm.r_cache r1;
       vm.v_gas := foldl vm.charge provisioningTracker (vm.r_charges r1);
       vm.v_storage := vm.r_storage r1 |}.

(** What the execution of a query is handed: a cached tree with nothing
    buffered and a gas tracker whose limit is the block gas limit. *)
Definition queryView (w : World T S) : vm.View T S :=
  {| vm.v_base := base w; vm.v_cache := state.emptyCache;
     vm.v_gas := vm.withMsgGasLimit BlockGasLimit vm.zeroGasTracker;
     vm.v_storage := storage w |}.

(** The context attemptApplyMessage builds for the execution, lines
    263-276. *)
Definition messageContext (p : DefaultProcessor) (st gasTracker : vm.ptr)
  (msg : types.UnsignedMessage) (bh : option types.BlockHeight)
  (ancestors : list block.TipSet) (fromActor toActor : option actor.Actor)
  (toAddr : Address) : vm.Context :=
  vm.NewVMContext
    {| vm.From := fromActor; vm.To := toActor; vm.ToAddr := toAddr;
       vm.Message := Some msg; vm.OriginMsg := Some msg;
       vm.State := Some st; vm.GasTracker := Some gasTracker;
       vm.BlockHeight := bh; vm.Ancestors := ancestors;
       vm.Actors_ := Some (actors p) |}.

(** What a call into the VM is handed when the cached tree of its context
    is [c] and the gas tracker of its context is [g]. *)
Definition viewOf (w : World T S) (c : state.CachedTree)
  (g : vm.LegacyGasTracker) : vm.View T S :=
  {| vm.v_base := base w; vm.v_cache := c; vm.v_gas := g;
     vm.v_storage := storage w |}.

(** The world after a call into the VM, logged as [call], under the cached
    tree behind [st] and the gas tracker behind [gt], which was [g], came
    back with the reply [r]. *)
Definition afterSend {R} (st gt : vm.ptr) (call : Call)
  (g : vm.LegacyGasTracker) (r : vm.Reply S R) (w : World T S) : World T S :=
  {| base := base w; storage := vm.r_storage r;
     cachedTrees := <[st := vm.r_cache r]> (cachedTrees w);
     gasTrackers := <[gt := foldl vm.charge g (vm.r_charges r)]> (gasTrackers w);
     calls := calls w ++ [call] |}.

(** [confined st gt w w']: between [w] and [w'] the base tree was not
    written, no cached tree changed but the one behind [st], no gas
    tracker that existed changed but the one behind [gt], and no call that
    writes the base tree was made. *)
Record confined (st gt : vm.ptr) (w w' : World T S) : Prop := {
  conf_base : base w' = base w;
  conf_trees : forall i, i <> st -> cachedTrees w' !! i = cachedTrees w !! i;
  conf_gas :
    forall i gi, i <> gt -> gasTrackers w !! i = Some gi ->
                 gasTrackers w' !! i = Some gi;
  conf_calls :
    exists extra, calls w' = calls w ++ extra /\
                  Forall (fun c => ~ writesBase c) extra;
}.

End Handed.


(** ** The owner of a miner *)

(** What minerOwnerAddress takes from other packages: the method number
    [miner.GetOwner] and the decoder [address.NewFromBytes]. *)
Class MinerCollaborators := {
  GetOwner : types.MethodID;
  NewFromBytes : types.bytes -> Address * error;
}.

(** [errors.NewFaultErrorf] of the format of line 406 and an exit code. *)
Definition errMinerOwnerCode (code : N) : error :=
  errors.NewFaultError ("could not get miner owner. error code " +:+ pretty code).

Section MinerOwner.

Context {T S : Type} `{!state.Tree T} `{!Collaborators T S} `{!MinerCollaborators}.

(** minerOwnerAddress, lines 400-409.  [ret[0]] panics when the query
    returned no value. *)
Definition minerOwnerAddress (p : DefaultProcessor) (minerAddr : Address)
  : Go (World T S) (Address * error) :=
  let* (ret_, code, err) :=
    CallQueryMethod p minerAddr GetOwner [] Undef
      (Some (types.NewBlockHeight 0)) in
  if notNil err then
    ret (Undef, errors.FaultErrorWrap err "could not get miner owner")
  else if negb (code =? 0)%N then ret (Undef, errMinerOwnerCode code)
  else
    match ret_ with
    | [] => panic
    | owner :: _ => ret (NewFromBytes owner)
    end.

End MinerOwner.

(** ** More nodes held in memory *)

(** The node of [example] with a decoder of addresses that reads the
    length of the bytes as an ID. *)
#[global] Instance example_miner : MinerCollaborators := {|
  GetOwner := 7%N;
  NewFromBytes b := (IDAddr (N.of_nat (length b)), nil_error);
|}.

(** A key address that the init actor of [example] knows as the account
    100, and the world in which it does. *)
Definition knownKey : Address := KeyAddr address.SECP256K1 9.

Definition knownWorld : World example.Tree example.Storage :=
  {| base := example.tree; storage := {[ knownKey := 100%N ]};
     cachedTrees := [state.emptyCache]; gasTrackers := [example.tracker 0];
     calls := [] |}.

(** A world whose tree is empty: it has no init actor. *)
Definition bareWorld : World example.Tree example.Storage :=
  {| base := ∅; storage := ∅; cachedTrees := [state.emptyCache];
     gasTrackers := [example.tracker 0]; calls := [] |}.

(** A node that fails: its VM faults on every execution after charging 3
    units, its init actor answers with no value, and the application of a
    tip-set returns a receipt together with an error that is not a
    fault. *)
Module faulty.

Definition vmFault : error := errors.NewFaultError "vm failure".

Definition receipt : types.MessageReceipt :=
  {| types.ExitCode := 0%N; types.Return := []; types.GasAttoFIL := 5 |}.

#[global] Instance collaborators : Collaborators example.Tree unit := {|
  BlockGasLimit := 10000000%N;
  ExecMethodID := 1%N;
  GetActorIDForAddressMethodID := 2%N;
  AccountActorCodeCid := 1%N;
  NewIDAddress id := (IDAddr id, nil_error);
  CodeError err := if isNil err then 0%N else 1%N;
  LookupIDAddress _ _ _ _ _ := (0%N, false, nil_error);
  Send _ v :=
    {| vm.r_result := ([], 2%N, vmFault); vm.r_cache := vm.v_cache v;
       vm.r_storage := tt; vm.r_charges := [3%N] |};
  Context_Send _ _ _ _ _ v :=
    {| vm.r_result := vm.VNil; vm.r_cache := vm.v_cache v;
       vm.r_storage := tt; vm.r_charges := [] |};
  ApplyTipSetMessages _ _ t s := ([receipt], errors.Revert "conflict", t, s);
|}.

Definition world : World example.Tree unit :=
  {| base := example.tree; storage := tt; cachedTrees := [state.emptyCache];
     gasTrackers := [example.tracker 0]; calls := [] |}.

End faulty.

(** Messages and a tip-set for the node of [example]. *)


(** A message to that key. *)
Definition giftMessage : types.UnsignedMessage :=
  {| types.To := example.unknownKey; types.From := IDAddr 100;
     types.CallSeqNum := 5%N; types.Value := 1; types.Method := 0%N;
     types.Params := []; types.GasPrice := 3; types.GasLimit := 1000%N |}.

(** A tip-set of one block at height 3. *)
Definition tipsetAtThree : block.TipSet :=
  [{| block.Height := 3%N; block.Ticket := 0%N |}].

(** * Properties *)

(** ** Running Go bodies *)

Lemma bind_run {W A B} (m : Go W A) (f : A -> Go W B) w a w' :
  m w = Done a w' -> bind m f w = f a w'.
Proof. unfold bind. intros ->. reflexivity. Qed.

(** ** The gas tracker *)

Lemma notNil_true err : notNil err = true <-> err <> nil_error.
Proof.
  unfold notNil, isNil. rewrite negb_true_iff, bool_decide_eq_false. tauto.
Qed.

Lemma notNil_false err : notNil err = false <-> err = nil_error.
Proof.
  unfold notNil, isNil. rewrite negb_false_iff, bool_decide_eq_true. tauto.
Qed.

Lemma charge_limit g cost : vm.MsgGasLimit (vm.charge g cost) = vm.MsgGasLimit g.
Proof. reflexivity. Qed.

Lemma charges_limit charges g :
  vm.MsgGasLimit (foldl vm.charge g charges) = vm.MsgGasLimit g.
Proof.
  revert g. induction charges as [| cost charges IH]; intros g; simpl.
  - reflexivity.
  - rewrite IH. apply charge_limit.
Qed.

(** Charging keeps the gas used by the message within the message's
    limit. *)
Lemma charges_within_limit charges g :
  (vm.gasConsumedByMessage g <= vm.MsgGasLimit g)%N ->
  (vm.gasConsumedByMessage (foldl vm.charge g charges) <= vm.MsgGasLimit g)%N.
Proof.
  revert g. induction charges as [| cost charges IH]; intros g Hg; simpl.
  - exact Hg.
  - rewrite <- (charge_limit g cost). apply IH. simpl. apply N.le_min_l.
Qed.

Lemma int64_small (x : types.GasUnits) :
  (x < 2 ^ 63)%N -> types.int64 x = Z.of_N x.
Proof.
  intros Hx. unfold types.int64.
  assert (0 <= Z.of_N x < 2 ^ 63) as Hz.
  { split; [lia |]. change (2 ^ 63) with (Z.of_N (2 ^ 63)). lia. }
  rewrite Z.mod_small; lia.
Qed.

(** ** Address resolution *)

Section ResolutionProperties.

Context {T S : Type} `{!state.Tree T} `{!Collaborators T S}.

Lemma appended_nil (w : World T S) : appended [] w = w.
Proof. destruct w. unfold appended. simpl. rewrite app_nil_r. reflexivity. Qed.

Lemma appended_appended e1 e2 (w : World T S) :
  appended e2 (appended e1 w) = appended (e1 ++ e2) w.
Proof. unfold appended. simpl. rewrite app_assoc. reflexivity. Qed.

Lemma logged_appended c (w : World T S) : logged c w = appended [c] w.
Proof. reflexivity. Qed.

(** ResolveAddress returns what [resolution] computes from the state, and
    leaves nothing behind but the log of its reads. *)
Lemma ResolveAddress_run addr st gt (w : World T S) c :
  cachedTrees w !! st = Some c ->
  exists extra,
    ResolveAddress addr st gt w
      = Done (resolution addr st (base w) c (storage w)) (appended extra w) /\
    Forall (resolveCall st addr) extra.
Proof.
  intros Hst. unfold ResolveAddress, resolution.
  destruct (bool_decide (address.protocol addr = address.ID)).
  { exists []. rewrite appended_nil. split; [reflexivity | constructor]. }
  unfold bind at 1. unfold CachedTree_GetActor. rewrite Hst.
  destruct (state.read (base w) c address.InitAddress) as [init err].
  destruct (notNil err).
  { exists [CachedGetActor st address.InitAddress].
    split; [reflexivity | repeat constructor]. }
  unfold bind, initactor_LookupIDAddress. simpl. rewrite Hst.
  destruct (LookupIDAddress (lookupContext init st) addr (base w) c (storage w))
    as [[id found] err'].
  exists [CachedGetActor st address.InitAddress;
          InitLookupIDAddress (lookupContext init st) addr].
  assert (Forall (resolveCall st addr)
            [CachedGetActor st address.InitAddress;
             InitLookupIDAddress (lookupContext init st) addr]) as Hlog
    by (repeat constructor).
  split; [| exact Hlog].
  rewrite !logged_appended, appended_appended. simpl.
  destruct (notNil err'); [reflexivity |].
  destruct found; simpl; [| reflexivity].
  destruct (NewIDAddress id) as [idAddr err''].
  destruct (notNil err''); reflexivity.
Qed.

(** C5. An address whose protocol is ID resolves to itself, found, with a
    nil error and without any access to the state: the world, call log
    included, is as before, whatever the pointers are.  Hence resolving
    the result of such a resolution returns the same ID address again. *)
Theorem ResolveAddress_ID_unchanged_idempotent addr st gt (w : World T S) :
  address.protocol addr = address.ID ->
  ResolveAddress addr st gt w = Done (addr, true, nil_error) w /\
  bind (ResolveAddress addr st gt)
       (fun r => ResolveAddress r.1.1 st gt) w
    = ResolveAddress addr st gt w.
Proof.
  intros HID.
  assert (ResolveAddress addr st gt w = Done (addr, true, nil_error) w) as Hrun.
  { unfold ResolveAddress. rewrite bool_decide_eq_true_2 by exact HID.
    reflexivity. }
  split; [exact Hrun |].
  rewrite (bind_run _ _ _ _ _ Hrun). simpl. reflexivity.
Qed.

End ResolutionProperties.

(** ** Calls into the VM *)

Section VMProperties.

Context {T S : Type} `{!state.Tree T} `{!Collaborators T S}.

Lemma vmctx_Send_run ctx to method val args (w : World T S) st gt c g :
  vm.State (vm.params ctx) = Some st ->
  vm.GasTracker (vm.params ctx) = Some gt ->
  cachedTrees w !! st = Some c ->
  gasTrackers w !! gt = Some g ->
  let v := {| vm.v_base := base w; vm.v_cache := c; vm.v_gas := g;
              vm.v_storage := storage w |} in
  let r := Context_Send ctx to method val args v in
  vmctx_Send ctx to method val args w
    = Done (vm.r_result r)
        {| base := base w; storage := vm.r_storage r;
           cachedTrees := <[st := vm.r_cache r]> (cachedTrees w);
           gasTrackers := <[gt := foldl vm.charge g (vm.r_charges r)]> (gasTrackers w);
           calls := calls w ++ [VmContextSend ctx to method val args g] |}.
Proof.
  intros Hs Hg Hc Ht. unfold vmctx_Send, bind, view.
  rewrite Hs, Hg, Hc, Ht. reflexivity.
Qed.

Lemma vm_Send_run ctx (w : World T S) st gt c g :
  vm.State (vm.params ctx) = Some st ->
  vm.GasTracker (vm.params ctx) = Some gt ->
  cachedTrees w !! st = Some c ->
  gasTrackers w !! gt = Some g ->
  let v := {| vm.v_base := base w; vm.v_cache := c; vm.v_gas := g;
              vm.v_storage := storage w |} in
  let r := Send ctx v in
  vm_Send ctx w
    = Done (vm.r_result r)
        {| base := base w; storage := vm.r_storage r;
           cachedTrees := <[st := vm.r_cache r]> (cachedTrees w);
           gasTrackers := <[gt := foldl vm.charge g (vm.r_charges r)]> (gasTrackers w);
           calls := calls w ++ [VmSend ctx g] |}.
Proof.
  intros Hs Hg Hc Ht. unfold vm_Send, bind, view.
  rewrite Hs, Hg, Hc, Ht. reflexivity.
Qed.

Lemma CachedTree_GetActor_run st a (w : World T S) c :
  cachedTrees w !! st = Some c ->
  CachedTree_GetActor st a w
    = Done (state.read (base w) c a) (appended [CachedGetActor st a] w).
Proof. intros Hc. unfold CachedTree_GetActor. rewrite Hc. reflexivity. Qed.

Lemma provisions_appended st addr extra (w : World T S) c :
  cachedTrees w !! st = Some c ->
  Forall (readCall st) extra ->
  provisions st addr w (appended extra w).
Proof.
  intros Hc Hextra. split; simpl.
  - reflexivity.
  - exists c. symmetry. apply list_insert_id. exact Hc.
  - exists []. symmetry. apply app_nil_r.
  - exists extra. split; [reflexivity | left; exact Hextra].
Qed.

Lemma resolveCall_readCall st addr c : resolveCall st addr c -> readCall st c.
Proof. destruct c; simpl; tauto. Qed.

End VMProperties.

(** ** Looking up or provisioning an actor *)

Section ProvisioningProperties.

Context {T S : Type} `{!state.Tree T} `{!Collaborators T S}.

Lemma lookup_at_end {A} (l : list A) (x : A) : (l ++ [x]) !! length l = Some x.
Proof. apply list_lookup_middle. reflexivity. Qed.

Lemma insert_at_end {A} (l : list A) (x y : A) :
  <[length l := y]> (l ++ [x]) = l ++ [y].
Proof.
  rewrite insert_app_r_alt by reflexivity.
  rewrite Nat.sub_diag. reflexivity.
Qed.

Lemma SetMsgGasLimit_run gt limit (w : World T S) g :
  gasTrackers w !! gt = Some g ->
  SetMsgGasLimit gt limit w
    = Done tt
        {| base := base w; storage := storage w; cachedTrees := cachedTrees w;
           gasTrackers := <[gt := vm.withMsgGasLimit limit g]> (gasTrackers w);
           calls := calls w |}.
Proof.
  intros Hg. unfold SetMsgGasLimit, bind, loadGas, storeGas.
  rewrite Hg. simpl. rewrite Hg. reflexivity.
Qed.

(** A new gas tracker whose limit is set: the trackers that existed are
    as they were, and the new one is behind a pointer that was not in
    use. *)
Lemma fresh_tracker_run {A} limit (k : vm.ptr -> Go (World T S) A) (w : World T S) :
  bind NewLegacyGasTracker (fun gt => bind (SetMsgGasLimit gt limit) (fun _ => k gt)) w
  = k (length (gasTrackers w))
      {| base := base w; storage := storage w; cachedTrees := cachedTrees w;
         gasTrackers :=
           gasTrackers w ++ [vm.withMsgGasLimit limit vm.zeroGasTracker];
         calls := calls w |}.
Proof.
  unfold bind at 1. unfold NewLegacyGasTracker.
  erewrite bind_run; [| apply SetMsgGasLimit_run; simpl; apply lookup_at_end].
  simpl. rewrite insert_at_end. reflexivity.
Qed.

Lemma provisions_intro st addr (w : World T S) s c' new extra :
  provisioningLog st (length (gasTrackers w)) addr extra ->
  provisions st addr w
    {| base := base w; storage := s;
       cachedTrees := <[st := c']> (cachedTrees w);
       gasTrackers := gasTrackers w ++ new; calls := calls w ++ extra |}.
Proof.
  intros Hextra. split; simpl.
  - reflexivity.
  - exists c'. reflexivity.
  - exists new. reflexivity.
  - exists extra. split; [reflexivity | exact Hextra].
Qed.

(** getOrCreateActor returns whenever the cached tree it is given exists,
    and [provisions] describes what it leaves behind. *)
Lemma getOrCreateActor_run st addr gt (w : World T S) c :
  cachedTrees w !! st = Some c ->
  exists r w', getOrCreateActor st addr gt w = Done r w' /\ provisions st addr w w'.
Proof.
  intros Hc. unfold getOrCreateActor.
  destruct (ResolveAddress_run addr st gt w c Hc) as (extra & Hrun & Hextra).
  rewrite (bind_run _ _ _ _ _ Hrun).
  destruct (resolution addr st (base w) c (storage w)) as [[idAddr found] err].
  assert (Forall (readCall st) extra) as Hprov.
  { eapply Forall_impl; [exact Hextra |].
    intros x. apply resolveCall_readCall. }
  destruct (notNil err).
  { eexists _, _. split; [reflexivity |].
    eapply provisions_appended; eauto. }
  destruct found.
  { rewrite (bind_run _ _ _ _ _
               (CachedTree_GetActor_run st idAddr (appended extra w) c Hc)).
    destruct (state.read (base (appended extra w)) c idAddr) as [act err'].
    eexists _, _. split; [reflexivity |].
    rewrite appended_appended. eapply provisions_appended; eauto.
    apply Forall_app. split; [exact Hprov | repeat constructor]. }
  rewrite (bind_run _ _ _ _ _
             (CachedTree_GetActor_run st address.InitAddress (appended extra w) c Hc)).
  destruct (state.read (base (appended extra w)) c address.InitAddress)
    as [initAct err1].
  rewrite appended_appended.
  set (reads := extra ++ [CachedGetActor st address.InitAddress]).
  assert (Forall (readCall st) reads) as Hreads.
  { apply Forall_app. split; [exact Hprov | repeat constructor]. }
  destruct (notNil err1).
  { eexists _, _. split; [reflexivity |].
    eapply provisions_appended; eauto. }
  rewrite fresh_tracker_run.
  set (noopGT := length (gasTrackers w)).
  set (g0 := vm.withMsgGasLimit 10000%N vm.zeroGasTracker).
  pose proof (lookup_lt_Some _ _ _ Hc) as Hlt.
  erewrite bind_run;
    [| eapply (vmctx_Send_run _ _ _ _ _ _ st noopGT c g0);
       [reflexivity | reflexivity | exact Hc | apply lookup_at_end]].
  cbv zeta. simpl base. simpl storage.
  set (r1 := Context_Send _ _ _ _ _ _).
  erewrite bind_run;
    [| eapply (vmctx_Send_run _ _ _ _ _ _ st noopGT (vm.r_cache r1)
                 (foldl vm.charge g0 (vm.r_charges r1)));
       [reflexivity | reflexivity
       | simpl; apply list_lookup_insert_eq; exact Hlt
       | simpl; unfold noopGT; rewrite insert_at_end; apply lookup_at_end]].
  cbv zeta. simpl base. simpl storage. simpl cachedTrees. simpl gasTrackers.
  simpl calls.
  set (r2 := Context_Send _ _ _ _ _ _).
  rewrite list_insert_insert_eq. unfold noopGT. rewrite !insert_at_end.
  rewrite <- !app_assoc.
  fold (execCall initAct st (length (gasTrackers w)) addr g0).
  fold (idLookupCall initAct st (length (gasTrackers w)) addr
          (foldl vm.charge g0 (vm.r_charges r1))).
  set (g1 := foldl vm.charge g0 (vm.r_charges r1)).
  assert (vm.MsgGasLimit g1 = 10000%N) as Hg1 by apply charges_limit.
  set (w2 := Build_World _ _ _ _ _).
  assert (provisions st addr w w2) as Hw2.
  { apply provisions_intro. right. exists initAct, g1, reads, [].
    rewrite app_nil_r. repeat split; [exact Hreads | constructor | exact Hg1]. }
  destruct (vm.r_result r2) as [| | | id | |];
    try (eexists _, _; split; [reflexivity | exact Hw2]).
  destruct (NewIDAddress (vm.Uint64 id)) as [idAddr0 err0].
  destruct (notNil err0).
  { eexists _, _. split; [reflexivity | exact Hw2]. }
  erewrite bind_run;
    [| eapply (CachedTree_GetActor_run st idAddr0 w2 (vm.r_cache r2));
       simpl; apply list_lookup_insert_eq; exact Hlt].
  destruct (state.read (base w2) (vm.r_cache r2) idAddr0) as [act err2].
  eexists _, _. split; [reflexivity |].
  unfold appended, w2. simpl. rewrite <- !app_assoc.
  apply provisions_intro. right.
  exists initAct, g1, reads, [CachedGetActor st idAddr0].
  repeat split; [exact Hreads | repeat constructor | exact Hg1].
Qed.

End ProvisioningProperties.

(** The last step of the proof below: the run has come to its result in
    a world whose log and gas trackers are those of a provisioning. *)
Local Ltac provisioned_exit Hdone tail :=
  unfold ret;
  match goal with
  | |- context [Done ?x ?W = _] =>
      let extra0 := fresh "extra0" in
      let Hrest := fresh "Hrest" in
      destruct (Hdone tail W) as (extra0 & Hrest);
      [ repeat constructor
      | cbn [appended calls];
        repeat match goal with r := _ ++ _ |- _ => unfold r end;
        rewrite <- ?app_assoc; reflexivity
      | reflexivity
      | exists x, W, extra0; split; [reflexivity | exact Hrest] ]
  end.

(** C10.  getOrCreateActor provisions an actor exactly when the resolution
    of the address ends without error and finds no ID, and the init actor
    is read without error.  Then, whatever the address, the calls it makes
    are reads around two calls to the init actor, exec and the lookup of
    the ID, both with a context whose gas tracker is one that did not
    exist before the call (its pointer is past the trackers of the world,
    so it is not the caller's): exec finds it as it was created, with
    limit 10000 and nothing used, the lookup finds it with what exec
    charged; it is the only tracker added, and it records the gas of both
    calls.  On every other path only reads are made and no gas tracker is
    created.  On all paths the call returns and the caller's gas tracker
    is afterwards as it was before. *)
Theorem getOrCreateActor_provisions_under_fresh_tracker
  {T S : Type} `{!state.Tree T} `{!Collaborators T S}
  st addr gt (w : World T S) c g :
  cachedTrees w !! st = Some c ->
  gasTrackers w !! gt = Some g ->
  let res := resolution addr st (base w) c (storage w) in
  let init := state.read (base w) c address.InitAddress in
  let provisioned :=
    res.2 = nil_error /\ res.1.2 = false /\ init.2 = nil_error in
  let noopGT := length (gasTrackers w) in
  let r1 := execReply init.1 st noopGT addr (base w) c (storage w) in
  let g1 := foldl vm.charge provisioningTracker (vm.r_charges r1) in
  let r2 := idReply init.1 st noopGT addr (base w) r1 in
  let spent := foldl vm.charge g1 (vm.r_charges r2) in
  exists r w' extra,
    getOrCreateActor st addr gt w = Done r w' /\
    calls w' = calls w ++ extra /\
    gasTrackers w' !! gt = Some g /\
    gt <> noopGT /\
    (provisioned ->
     exists reads tail,
       extra = reads
               ++ [execCall init.1 st noopGT addr provisioningTracker;
                   idLookupCall init.1 st noopGT addr g1]
               ++ tail /\
       Forall (readCall st) reads /\ Forall (readCall st) tail /\
       vm.GasTracker (vm.params (provisioningContext init.1 st noopGT))
         = Some noopGT /\
       provisioningTracker
         = {| vm.MsgGasLimit := 10000%N; vm.gasConsumedByBlock := 0%N;
              vm.gasConsumedByMessage := 0%N |} /\
       gasTrackers w' = gasTrackers w ++ [spent] /\
       vm.MsgGasLimit spent = 10000%N) /\
    (~ provisioned ->
     Forall (readCall st) extra /\ gasTrackers w' = gasTrackers w).
Proof.
  intros Hc Hg. cbv zeta.
  assert (gt <> length (gasTrackers w)) as Hfresh.
  { apply lookup_lt_Some in Hg. lia. }
  unfold getOrCreateActor.
  destruct (ResolveAddress_run addr st gt w c Hc) as (extra & Hrun & Hextra).
  rewrite (bind_run _ _ _ _ _ Hrun).
  destruct (resolution addr st (base w) c (storage w)) as [[idAddr found] err].
  cbn [fst snd].
  assert (Forall (readCall st) extra) as Hreads0.
  { eapply Forall_impl; [exact Hextra |].
    intros x. apply resolveCall_readCall. }
  destruct (notNil err) eqn:Herr.
  { apply notNil_true in Herr.
    eexists _, _, extra. split; [reflexivity |].
    split; [reflexivity |]. split; [exact Hg |]. split; [exact Hfresh |].
    split; [intros (Hnil & _); contradiction |].
    intros _. split; [exact Hreads0 | reflexivity]. }
  apply notNil_false in Herr. subst err.
  destruct found.
  { rewrite (bind_run _ _ _ _ _
               (CachedTree_GetActor_run st idAddr (appended extra w) c Hc)).
    destruct (state.read (base (appended extra w)) c idAddr) as [act err'].
    eexists _, _, (extra ++ [CachedGetActor st idAddr]).
    split; [reflexivity |].
    split; [cbn [appended calls]; rewrite app_assoc; reflexivity |].
    split; [exact Hg |]. split; [exact Hfresh |].
    split; [intros (_ & Hfound & _); discriminate |].
    intros _. split; [| reflexivity].
    apply Forall_app. split; [exact Hreads0 | repeat constructor]. }
  rewrite (bind_run _ _ _ _ _
             (CachedTree_GetActor_run st address.InitAddress (appended extra w) c Hc)).
  cbn [appended base].
  destruct (state.read (base w) c address.InitAddress) as [initAct err1].
  cbn [fst snd].
  set (reads := extra ++ [CachedGetActor st address.InitAddress]).
  assert (Forall (readCall st) reads) as Hreads.
  { apply Forall_app. split; [exact Hreads0 | repeat constructor]. }
  destruct (notNil err1) eqn:Herr1.
  { apply notNil_true in Herr1.
    eexists _, _, reads. split; [reflexivity |].
    split; [cbn [appended calls]; unfold reads; rewrite app_assoc; reflexivity |].
    split; [exact Hg |]. split; [exact Hfresh |].
    split; [intros (_ & _ & Hnil); contradiction |].
    intros _. split; [exact Hreads | reflexivity]. }
  apply notNil_false in Herr1. subst err1.
  rewrite fresh_tracker_run.
  cbn [appended base storage cachedTrees gasTrackers calls].
  pose proof (lookup_lt_Some _ _ _ Hc) as Hlt.
  fold provisioningTracker.
  erewrite bind_run;
    [| eapply (vmctx_Send_run _ _ _ _ _ _ st (length (gasTrackers w)) c
                 provisioningTracker);
       [reflexivity | reflexivity | exact Hc | apply lookup_at_end]].
  cbv zeta. cbn [base storage cachedTrees gasTrackers calls].
  fold (execReply initAct st (length (gasTrackers w)) addr (base w) c (storage w)).
  set (r1 := execReply _ _ _ _ _ _ _).
  erewrite bind_run;
    [| eapply (vmctx_Send_run _ _ _ _ _ _ st (length (gasTrackers w))
                 (vm.r_cache r1)
                 (foldl vm.charge provisioningTracker (vm.r_charges r1)));
       [reflexivity | reflexivity
       | cbn [cachedTrees]; apply list_lookup_insert_eq; exact Hlt
       | cbn [gasTrackers]; rewrite insert_at_end; apply lookup_at_end]].
  cbv zeta. cbn [base storage cachedTrees gasTrackers calls].
  fold (idReply initAct st (length (gasTrackers w)) addr (base w) r1).
  set (r2 := idReply _ _ _ _ _ _).
  rewrite list_insert_insert_eq, !insert_at_end.
  fold (execCall initAct st (length (gasTrackers w)) addr provisioningTracker).
  fold (idLookupCall initAct st (length (gasTrackers w)) addr
          (foldl vm.charge provisioningTracker (vm.r_charges r1))).
  set (g1 := foldl vm.charge provisioningTracker (vm.r_charges r1)).
  set (spent := foldl vm.charge g1 (vm.r_charges r2)).
  assert (vm.MsgGasLimit spent = 10000%N) as Hlimit.
  { unfold spent, g1. rewrite !charges_limit. reflexivity. }
  assert (forall tail (w' : World T S),
            Forall (readCall st) tail ->
            calls w'
              = calls w
                ++ reads
                   ++ [execCall initAct st (length (gasTrackers w)) addr
                         provisioningTracker;
                       idLookupCall initAct st (length (gasTrackers w)) addr g1]
                   ++ tail ->
            gasTrackers w' = gasTrackers w ++ [spent] ->
            exists extra0,
              calls w' = calls w ++ extra0 /\
              gasTrackers w' !! gt = Some g /\
              gt <> length (gasTrackers w) /\
              (nil_error = nil_error /\ false = false /\ nil_error = nil_error ->
               exists reads0 tail0,
                 extra0 = reads0
                          ++ [execCall initAct st (length (gasTrackers w)) addr
                                provisioningTracker;
                              idLookupCall initAct st (length (gasTrackers w))
                                addr g1]
                          ++ tail0 /\
                 Forall (readCall st) reads0 /\ Forall (readCall st) tail0 /\
                 vm.GasTracker
                   (vm.params
                      (provisioningContext initAct st (length (gasTrackers w))))
                   = Some (length (gasTrackers w)) /\
                 provisioningTracker
                   = {| vm.MsgGasLimit := 10000%N; vm.gasConsumedByBlock := 0%N;
                        vm.gasConsumedByMessage := 0%N |} /\
                 gasTrackers w' = gasTrackers w ++ [spent] /\
                 vm.MsgGasLimit spent = 10000%N) /\
              (~ (nil_error = nil_error /\ false = false /\ nil_error = nil_error) ->
               Forall (readCall st) extra0 /\ gasTrackers w' = gasTrackers w))
    as Hdone.
  { intros tail w' Htail Hcalls Hgas.
    eexists. split; [exact Hcalls |].
    split; [rewrite Hgas; apply lookup_app_l_Some; exact Hg |].
    split; [exact Hfresh |].
    split.
    - intros _. exists reads, tail.
      split; [reflexivity |]. split; [exact Hreads |]. split; [exact Htail |].
      split; [reflexivity |]. split; [reflexivity |].
      split; [exact Hgas | exact Hlimit].
    - intros Hnot. exfalso. apply Hnot. repeat split. }
  destruct (vm.r_result r2) as [| | | id | |];
    try (provisioned_exit Hdone (@nil Call)).
  destruct (NewIDAddress (vm.Uint64 id)) as [idAddr0 err0].
  destruct (notNil err0).
  { provisioned_exit Hdone (@nil Call). }
  erewrite bind_run;
    [| eapply (CachedTree_GetActor_run st idAddr0 _ (vm.r_cache r2));
       cbn [cachedTrees]; apply list_lookup_insert_eq; exact Hlt].
  cbn [base]. cbv zeta.
  destruct (state.read (base w) (vm.r_cache r2) idAddr0) as [act err2].
  provisioned_exit Hdone [CachedGetActor st idAddr0].
Qed.

(** ** The query entry points *)

Section QueryProperties.

Context {T S : Type} `{!state.Tree T} `{!Collaborators T S}.

Lemma CallQueryMethod_run p to method params from optBh (w : World T S) :
  let st := length (cachedTrees w) in
  let res := resolution to st (base w) state.emptyCache (storage w) in
  let lookup := state.GetActor (base w) res.1.1 in
  exists r w' extra c g,
    CallQueryMethod p to method params from optBh w = Done r w' /\
    base w' = base w /\
    cachedTrees w' = cachedTrees w ++ [c] /\
    gasTrackers w' = gasTrackers w ++ [g] /\
    vm.MsgGasLimit g = BlockGasLimit /\
    calls w' = calls w ++ extra /\
    Forall (queryCall to res.1.1) extra /\
    (res.2 <> nil_error ->
       r = ([], 1%N, errors.FaultErrorWrapf res.2 "Could not resolve actor address") /\
       Forall (fun c => ~ entersVM c) extra) /\
    (res.2 = nil_error -> res.1.2 = false ->
       r = ([], 1%N,
            errors.ApplyErrorPermanentWrapf nil_error "failed to resolve To actor") /\
       Forall (fun c => ~ entersVM c) extra) /\
    (res.2 = nil_error -> res.1.2 = true -> lookup.2 <> nil_error ->
       r = ([], 1%N,
            errors.ApplyErrorPermanentWrapf lookup.2 "failed to get To actor") /\
       Forall (fun c => ~ entersVM c) extra).
Proof.
  cbv zeta. set (st := length (cachedTrees w)). unfold CallQueryMethod.
  unfold bind at 1. unfold NewCachedTree.
  rewrite fresh_tracker_run. simpl.
  fold st.
  set (g0 := vm.withMsgGasLimit BlockGasLimit vm.zeroGasTracker).
  assert ((cachedTrees w ++ [state.emptyCache]) !! st = Some state.emptyCache)
    as Hst by apply lookup_at_end.
  match goal with
  | |- context [bind _ _ ?w1] =>
      destruct (ResolveAddress_run to st (length (gasTrackers w)) w1 _ Hst)
        as (extra & Hrun & Hextra)
  end.
  rewrite (bind_run _ _ _ _ _ Hrun). cbn [base storage].
  destruct (resolution to st (base w) state.emptyCache (storage w))
    as [[toAddr found] err].
  assert (Forall (queryCall to toAddr) extra) as Hq.
  { eapply Forall_impl; [exact Hextra |]. intros [] ; simpl; tauto. }
  assert (Forall (fun c => ~ entersVM c) extra) as Hnovm.
  { eapply Forall_impl; [exact Hextra |]. intros [] ; simpl; tauto. }
  unfold appended. cbn [base storage cachedTrees gasTrackers calls fst snd].
  destruct (notNil err) eqn:Herr.
  { apply notNil_true in Herr.
    eexists _, _, extra, state.emptyCache, g0.
    split; [reflexivity |]. cbn [base storage cachedTrees gasTrackers calls].
    repeat split; try assumption; intros; congruence. }
  apply notNil_false in Herr. subst err.
  destruct found; cbn [negb].
  2: { eexists _, _, extra, state.emptyCache, g0.
       split; [reflexivity |]. cbn [base storage cachedTrees gasTrackers calls].
       repeat split; try assumption; intros; congruence. }
  unfold bind at 1. unfold Tree_GetActor, logged.
  cbn [base storage cachedTrees gasTrackers calls].
  destruct (state.GetActor (base w) toAddr) as [toActor err0].
  cbn [fst snd]. rewrite <- app_assoc.
  set (reads := extra ++ [TreeGetActor toAddr]).
  assert (Forall (queryCall to toAddr) reads) as Hreads.
  { apply Forall_app. split; [exact Hq | repeat constructor]. }
  assert (Forall (fun c => ~ entersVM c) reads) as Hreads'.
  { apply Forall_app. split; [exact Hnovm | repeat constructor; simpl; tauto]. }
  destruct (notNil err0) eqn:Herr0.
  { apply notNil_true in Herr0.
    eexists _, _, reads, state.emptyCache, g0.
    split; [reflexivity |]. cbn [base storage cachedTrees gasTrackers calls].
    repeat split; try assumption; intros; congruence. }
  apply notNil_false in Herr0. subst err0.
  erewrite (vm_Send_run _ _ st (length (gasTrackers w)) state.emptyCache g0);
    [| reflexivity | reflexivity | exact Hst | apply lookup_at_end].
  cbv zeta. cbn [base storage cachedTrees gasTrackers calls].
  set (r := Send _ _).
  eexists _, _, _, (vm.r_cache r), (foldl vm.charge g0 (vm.r_charges r)).
  split; [reflexivity |]. cbn [base storage cachedTrees gasTrackers calls].
  unfold st. rewrite !insert_at_end. rewrite <- !app_assoc.
  repeat split; try reflexivity; try (intros; congruence).
  - apply charges_limit.
  - apply Forall_app. split; [exact Hreads | repeat constructor].
Qed.

Lemma readCall_no_base_write st c : readCall st c -> ~ writesBase c.
Proof. destruct c; simpl; tauto. Qed.

Lemma provisioningLog_no_base_write st noopGT addr extra :
  provisioningLog st noopGT addr extra -> Forall (fun c => ~ writesBase c) extra.
Proof.
  intros [Hreads | (initAct & gas & reads & tail & -> & Hreads & Htail & _)].
  - eapply Forall_impl; [exact Hreads | apply readCall_no_base_write].
  - rewrite !Forall_app. repeat split.
    + eapply Forall_impl; [exact Hreads | apply readCall_no_base_write].
    + repeat constructor; simpl; tauto.
    + eapply Forall_impl; [exact Htail | apply readCall_no_base_write].
Qed.

Lemma PreviewQueryMethod_run p to method params from optBh (w : World T S) :
  exists r w' extra c new,
    PreviewQueryMethod p to method params from optBh w = Done r w' /\
    base w' = base w /\
    cachedTrees w' = cachedTrees w ++ [c] /\
    gasTrackers w' = gasTrackers w ++ new /\
    calls w' = calls w ++ extra /\
    Forall (fun c => ~ writesBase c) extra.
Proof.
  set (st := length (cachedTrees w)). unfold PreviewQueryMethod.
  unfold bind at 1. unfold NewCachedTree.
  rewrite fresh_tracker_run. simpl.
  fold st.
  set (g0 := vm.withMsgGasLimit BlockGasLimit vm.zeroGasTracker).
  set (gt := length (gasTrackers w)).
  assert ((cachedTrees w ++ [state.emptyCache]) !! st = Some state.emptyCache)
    as Hst by apply lookup_at_end.
  match goal with
  | |- context [bind _ _ ?w1] =>
      destruct (getOrCreateActor_run st to gt w1 _ Hst)
        as ([[toActor toAddr] err] & w2 & Hrun & Hprov)
  end.
  rewrite (bind_run _ _ _ _ _ Hrun).
  destruct Hprov as [Hbase [c' Htrees] [new Hgas] (extra & Hcalls & Hlog)].
  cbn [base storage cachedTrees gasTrackers calls] in *.
  unfold st in Htrees. rewrite insert_at_end in Htrees. fold st in Htrees.
  apply provisioningLog_no_base_write in Hlog.
  destruct (notNil err).
  { exists (0%N, errors.FaultErrorWrap err "failed to get To actor"), w2,
      extra, c', ([g0] ++ new).
    rewrite app_assoc. repeat split; assumption. }
  assert (cachedTrees w2 !! st = Some c') as Hst2.
  { rewrite Htrees. apply lookup_at_end. }
  assert (gasTrackers w2 !! gt = Some g0) as Hgt2.
  { rewrite Hgas. apply lookup_app_l_Some. apply lookup_at_end. }
  erewrite bind_run;
    [| eapply (vm_Send_run _ _ st gt c' g0);
       [reflexivity | reflexivity | exact Hst2 | exact Hgt2]].
  cbv zeta. set (r := Send _ _).
  destruct (vm.r_result r) as [[ret_ code] vmErr].
  unfold GasUnits. cbn [vm.GasTracker vm.params queryContext].
  unfold bind, loadGas. cbn [gasTrackers].
  rewrite list_lookup_insert_eq by (eapply lookup_lt_Some; exact Hgt2).
  eexists _, _, (extra ++ [_]), (vm.r_cache r),
    ([foldl vm.charge g0 (vm.r_charges r)] ++ new).
  split; [reflexivity |]. cbn [base storage cachedTrees gasTrackers calls].
  rewrite Hbase, Htrees, Hgas, Hcalls.
  unfold st, gt. rewrite insert_at_end.
  rewrite <- (app_assoc (gasTrackers w)).
  rewrite insert_app_r_alt by reflexivity.
  rewrite Nat.sub_diag. rewrite <- !app_assoc.
  repeat split.
  apply Forall_app. split; [exact Hlog | repeat constructor; simpl; tauto].
Qed.

(** C7. CallQueryMethod and PreviewQueryMethod always return, and leave
    the base tree as they found it: what they and the VM write goes to one
    cached tree, created by the call (the cached trees that existed are as
    they were), and no call that carries writes to the base tree, neither
    a commit nor the application of a tip-set, is made. *)
Theorem queries_leave_base_tree p to method params from optBh (w : World T S) :
  (exists r w' extra c,
     CallQueryMethod p to method params from optBh w = Done r w' /\
     base w' = base w /\
     cachedTrees w' = cachedTrees w ++ [c] /\
     calls w' = calls w ++ extra /\
     Forall (fun c => ~ writesBase c) extra) /\
  (exists r w' extra c,
     PreviewQueryMethod p to method params from optBh w = Done r w' /\
     base w' = base w /\
     cachedTrees w' = cachedTrees w ++ [c] /\
     calls w' = calls w ++ extra /\
     Forall (fun c => ~ writesBase c) extra).
Proof.
  split.
  - destruct (CallQueryMethod_run p to method params from optBh w)
      as (r & w' & extra & c & g & Hrun & Hbase & Htrees & _ & _ & Hcalls & Hq & _).
    exists r, w', extra, c. repeat split; try assumption.
    eapply Forall_impl; [exact Hq |]. intros []; simpl; tauto.
  - destruct (PreviewQueryMethod_run p to method params from optBh w)
      as (r & w' & extra & c & new & Hrun & Hbase & Htrees & _ & Hcalls & Hq).
    exists r, w', extra, c. repeat split; assumption.
Qed.

(** C6. Every call to CallQueryMethod returns; it runs under a gas
    tracker of its own whose message gas limit is the block gas limit, and
    the calls it makes are reads on behalf of the target, followed at most
    by the execution, with no sender actor: the validator is not called
    and the sender address is not resolved.  When the resolution of the
    target finds no ID address, or the resolved target has no actor record
    in the tree, the call ends before the VM is entered, with no return
    value, exit code 1 and a permanent apply error: not nil, not a
    temporary error, not a fault. *)
Theorem CallQueryMethod_absent_target_permanent
  p to method params from optBh (w : World T S) :
  let st := length (cachedTrees w) in
  let res := resolution to st (base w) state.emptyCache (storage w) in
  let lookup := state.GetActor (base w) res.1.1 in
  exists r w' extra g,
    CallQueryMethod p to method params from optBh w = Done r w' /\
    gasTrackers w' = gasTrackers w ++ [g] /\
    vm.MsgGasLimit g = BlockGasLimit /\
    calls w' = calls w ++ extra /\
    Forall (queryCall to res.1.1) extra /\
    (res.2 = nil_error ->
     res.1.2 = false \/ (res.1.2 = true /\ lookup.2 <> nil_error) ->
     exists err,
       r = ([], 1%N, err) /\
       errors.IsApplyErrorPermanent err = true /\
       err <> nil_error /\
       errors.IsApplyErrorTemporary err = false /\
       isTemporaryError err = false /\
       errors.IsFault err = false /\
       Forall (fun c => ~ entersVM c) extra).
Proof.
  cbv zeta.
  destruct (CallQueryMethod_run p to method params from optBh w)
    as (r & w' & extra & c & g & Hrun & _ & _ & Hgas & Hlimit & Hcalls & Hq
        & _ & Hunresolved & Habsent).
  exists r, w', extra, g. repeat split; try assumption.
  intros Hnil [Hnotfound | [Hfound Hlookup]].
  - destruct (Hunresolved Hnil Hnotfound) as [-> Hnovm].
    eexists. split; [reflexivity |]. repeat split; try assumption; discriminate.
  - destruct (Habsent Hnil Hfound Hlookup) as [-> Hnovm].
    eexists. split; [reflexivity |]. repeat split; try assumption; discriminate.
Qed.

End QueryProperties.

(** ** Applying a message *)

Section ApplicationProperties.

Context {T S : Type} `{!state.Tree T} `{!Collaborators T S}.

Lemma ResetForNewMessage_run gt msg (w : World T S) g :
  gasTrackers w !! gt = Some g ->
  ResetForNewMessage gt msg w = Done tt (afterReset gt msg g w).
Proof.
  intros Hg. unfold ResetForNewMessage, bind, loadGas, storeGas.
  rewrite Hg. simpl. rewrite Hg. reflexivity.
Qed.

Lemma blockGasLimitError_run gt (w : World T S) g :
  gasTrackers w !! gt = Some g ->
  blockGasLimitError gt w
    = Done (if vm.aboveBlockLimit BlockGasLimit g then errGasAboveBlockLimit
            else if vm.tooHighForCurrentBlock BlockGasLimit g
                 then errGasTooHighForCurrentBlock
                 else nil_error) w.
Proof.
  intros Hg.
  unfold blockGasLimitError, GasAboveBlockLimit, GasTooHighForCurrentBlock,
    bind, loadGas, ret.
  rewrite Hg. destruct (vm.aboveBlockLimit BlockGasLimit g); [reflexivity |].
  rewrite Hg. destruct (vm.tooHighForCurrentBlock BlockGasLimit g); reflexivity.
Qed.

Lemma validator_Validate_run p msg fromActor (w : World T S) :
  validator_Validate p msg fromActor w
    = Done (Validate (validator p) msg fromActor)
        (appended [ValidatorValidate msg fromActor] w).
Proof. reflexivity. Qed.

(** attemptApplyMessage, step by step: which of its exits a message
    takes, as a function of the state it reads, and the world it leaves
    when it does not go on to [execute]. *)
Lemma attemptApplyMessage_steps p st msg bh gt ancestors (w : World T S) c g :
  cachedTrees w !! st = Some c ->
  gasTrackers w !! gt = Some g ->
  let g0 := vm.reset msg g in
  let w0 := afterReset gt msg g w in
  let run := attemptApplyMessage p st msg bh gt ancestors w in
  if vm.aboveBlockLimit BlockGasLimit g0 then
    run = Done (Some (rejectionReceipt errGasAboveBlockLimit), errGasAboveBlockLimit) w0
  else if vm.tooHighForCurrentBlock BlockGasLimit g0 then
    run = Done (Some (rejectionReceipt errGasTooHighForCurrentBlock),
                errGasTooHighForCurrentBlock) w0
  else
    exists extra,
      Forall (readCall st) extra /\
      let '(fromAddr, found, err) :=
        resolution (types.From msg) st (base w) c (storage w) in
      if notNil err then
        run = Done (None, errors.FaultErrorWrapf err "Could not resolve actor address")
                (appended extra w0)
      else if negb found then
        run = Done (Some (rejectionReceipt err), errFromAccountNotFound)
                (appended extra w0)
      else
        let '(fromActor, err) := state.read (base w) c fromAddr in
        if state.IsActorNotFoundError err then
          run = Done (Some (rejectionReceipt err), errFromAccountNotFound)
                  (appended extra w0)
        else if notNil err then
          run = Done (None, errors.FaultErrorWrapf err "failed to get From actor")
                  (appended extra w0)
        else
          let verr := Validate (validator p) msg fromActor in
          let w1 := appended (extra ++ [ValidatorValidate msg fromActor]) w0 in
          if notNil verr then
            run = Done (Some (rejectionReceipt verr), verr) w1
          else
            run = execute p st msg bh gt ancestors fromActor w1.
Proof.
  intros Hc Hg. cbv zeta. unfold attemptApplyMessage.
  rewrite (bind_run _ _ _ _ _ (ResetForNewMessage_run gt msg w g Hg)).
  assert (gasTrackers (afterReset gt msg g w) !! gt = Some (vm.reset msg g)) as Hg0.
  { simpl. apply list_lookup_insert_eq. eapply lookup_lt_Some. exact Hg. }
  rewrite (bind_run _ _ _ _ _ (blockGasLimitError_run gt _ _ Hg0)).
  destruct (vm.aboveBlockLimit BlockGasLimit (vm.reset msg g)); [reflexivity |].
  destruct (vm.tooHighForCurrentBlock BlockGasLimit (vm.reset msg g));
    [reflexivity |].
  change (notNil nil_error) with false. cbv iota.
  destruct (ResolveAddress_run (types.From msg) st gt (afterReset gt msg g w) c Hc)
    as (extra & Hrun & Hextra).
  rewrite (bind_run _ _ _ _ _ Hrun). cbn [afterReset base storage].
  assert (Forall (readCall st) extra) as Hreads.
  { eapply Forall_impl; [exact Hextra |]. intros x. apply resolveCall_readCall. }
  destruct (resolution (types.From msg) st (base w) c (storage w))
    as [[fromAddr found] err].
  destruct (notNil err); [exists extra; split; [exact Hreads | reflexivity] |].
  destruct found; cbn [negb];
    [| exists extra; split; [exact Hreads | reflexivity]].
  exists (extra ++ [CachedGetActor st fromAddr]).
  split. { apply Forall_app. split; [exact Hreads | repeat constructor]. }
  erewrite bind_run;
    [| apply (CachedTree_GetActor_run st fromAddr _ c); exact Hc].
  rewrite appended_appended. cbn [appended afterReset base].
  destruct (state.read (base w) c fromAddr) as [fromActor err'].
  destruct (state.IsActorNotFoundError err'); [reflexivity |].
  destruct (notNil err'); [reflexivity |].
  rewrite (bind_run _ _ _ _ _ (validator_Validate_run p msg fromActor _)).
  rewrite appended_appended, <- app_assoc.
  destruct (notNil (Validate (validator p) msg fromActor)); reflexivity.
Qed.

Lemma readCall_not_VmSend st c : readCall st c -> forall ctx gas, c <> VmSend ctx gas.
Proof. destruct c; simpl; intros; try tauto; discriminate. Qed.

Lemma provisioningLog_no_VmSend st noopGT addr extra ctx gas :
  provisioningLog st noopGT addr extra -> VmSend ctx gas ∉ extra.
Proof.
  assert (forall l, Forall (readCall st) l -> VmSend ctx gas ∉ l) as Hread.
  { intros l Hl Hin. rewrite Forall_forall in Hl.
    exact (readCall_not_VmSend st _ (Hl _ Hin) ctx gas eq_refl). }
  intros [Hreads | (initAct & g & reads & tail & -> & Hreads & Htail & _)].
  - apply Hread. exact Hreads.
  - rewrite !elem_of_app. intros [Hin | [Hin | Hin]].
    + exact (Hread _ Hreads Hin).
    + apply elem_of_cons in Hin as [Hin | Hin]; [discriminate |].
      apply list_elem_of_singleton in Hin. discriminate.
    + exact (Hread _ Htail Hin).
Qed.

(** The last steps of attemptApplyMessage: they return whenever the cached
    tree and the gas tracker exist; the gas tracker keeps its limit and
    the gas it records stays within it; a receipt is produced exactly when
    the VM was entered for the message and did not fault, and it charges
    the gas price times the gas recorded. *)
Lemma execute_run p st msg bh gt ancestors fromActor (w : World T S) c g :
  cachedTrees w !! st = Some c ->
  gasTrackers w !! gt = Some g ->
  (vm.gasConsumedByMessage g <= vm.MsgGasLimit g)%N ->
  (vm.MsgGasLimit g < 2 ^ 63)%N ->
  exists receipt err w' g' extra,
    execute p st msg bh gt ancestors fromActor w = Done (receipt, err) w' /\
    gasTrackers w' !! gt = Some g' /\
    vm.MsgGasLimit g' = vm.MsgGasLimit g /\
    (vm.gasConsumedByMessage g' <= vm.MsgGasLimit g)%N /\
    calls w' = calls w ++ extra /\
    (forall r, receipt = Some r ->
       types.GasAttoFIL r
         = types.GasPrice msg * Z.of_N (vm.gasConsumedByMessage g')) /\
    ((exists ctx gas, VmSend ctx gas ∈ extra) ->
       errors.IsFault err = false -> is_Some receipt).
Proof.
  intros Hc Hg Hused Hlimit. unfold execute.
  destruct (getOrCreateActor_run st (types.To msg) gt w c Hc)
    as ([[toActor toAddr] err] & w2 & Hrun & Hprov).
  rewrite (bind_run _ _ _ _ _ Hrun).
  destruct Hprov as [Hbase [c' Htrees] [new Hgas] (extra & Hcalls & Hlog)].
  assert (gasTrackers w2 !! gt = Some g) as Hg2.
  { rewrite Hgas. apply lookup_app_l_Some. exact Hg. }
  assert (cachedTrees w2 !! st = Some c') as Hc2.
  { rewrite Htrees. apply list_lookup_insert_eq. eapply lookup_lt_Some. exact Hc. }
  destruct (notNil err).
  { exists None, (errors.FaultErrorWrap err "failed to get To actor"), w2, g, extra.
    repeat split; try assumption; try reflexivity.
    - intros r Hr. discriminate.
    - intros (ctx & gas & Hin) _.
      destruct (provisioningLog_no_VmSend _ _ _ _ ctx gas Hlog Hin). }
  erewrite bind_run;
    [| eapply (vm_Send_run _ _ st gt c' g);
       [reflexivity | reflexivity | exact Hc2 | exact Hg2]].
  cbv zeta. set (ctx := vm.NewVMContext _). set (r := Send _ _).
  set (g' := foldl vm.charge g (vm.r_charges r)).
  assert (vm.MsgGasLimit g' = vm.MsgGasLimit g) as Hlimit' by apply charges_limit.
  assert (vm.gasConsumedByMessage g' <= vm.MsgGasLimit g)%N as Hused'
    by (apply charges_within_limit; exact Hused).
  set (w3 := Build_World _ _ _ _ _).
  assert (gasTrackers w3 !! gt = Some g') as Hg3.
  { simpl. apply list_lookup_insert_eq. eapply lookup_lt_Some. exact Hg2. }
  assert (calls w3 = calls w ++ extra ++ [VmSend ctx g]) as Hcalls3.
  { simpl. rewrite Hcalls, <- app_assoc. reflexivity. }
  destruct (vm.r_result r) as [[ret_ exitCode] vmErr].
  destruct (errors.IsFault vmErr) eqn:Hfault.
  { exists None, vmErr, w3, g', (extra ++ [VmSend ctx g]).
    repeat split; try assumption.
    - intros r0 Hr0. discriminate.
    - intros _ Hnofault. congruence. }
  unfold GasUnits. cbn [vm.GasTracker vm.params ctx].
  unfold bind, loadGas. rewrite Hg3. unfold ret.
  eexists (Some _), vmErr, w3, g', (extra ++ [VmSend ctx g]).
  split; [reflexivity |].
  repeat split; try assumption.
  - intros r0 Hr0. injection Hr0 as <-. cbn [types.GasAttoFIL].
    unfold types.MulBigInt. rewrite int64_small; [reflexivity |]. lia.
  - intros _ _. eexists. reflexivity.
Qed.

Lemma Forall_readCall_no_VmSend st extra :
  Forall (readCall st) extra -> ~ exists ctx gas, VmSend ctx gas ∈ extra.
Proof.
  intros Hreads (ctx & gas & Hin). rewrite Forall_forall in Hreads.
  exact (readCall_not_VmSend st _ (Hreads _ Hin) ctx gas eq_refl).
Qed.

Lemma afterReset_lookup gt msg g (w : World T S) :
  gasTrackers w !! gt = Some g ->
  gasTrackers (afterReset gt msg g w) !! gt = Some (vm.reset msg g).
Proof.
  intros Hg. simpl. apply list_lookup_insert_eq. eapply lookup_lt_Some. exact Hg.
Qed.

(** C2, as amended.  A message whose gas limit does not fit the block is
    turned away at the gas check: attemptApplyMessage returns a receipt
    that charges no gas together with the error, having done nothing but
    reset the gas tracker (no call is logged: no state access, no VM).  The
    error is "gas above block limit", a permanent error, when the limit
    exceeds the block gas limit itself, and "gas too high for current
    block", a temporary error, when it only exceeds what is left of the
    block. *)
Theorem attemptApplyMessage_gas_check
  p st msg bh gt ancestors (w : World T S) g :
  gasTrackers w !! gt = Some g ->
  (BlockGasLimit < types.GasLimit msg + vm.gasConsumedByBlock g)%N ->
  exists err,
    attemptApplyMessage p st msg bh gt ancestors w
      = Done (Some (rejectionReceipt err), err) (afterReset gt msg g w) /\
    types.GasAttoFIL (rejectionReceipt err) = types.ZeroAttoFIL /\
    calls (afterReset gt msg g w) = calls w /\
    if (BlockGasLimit <? types.GasLimit msg)%N then
      err = errGasAboveBlockLimit /\
      isPermanentError err = true /\ isTemporaryError err = false
    else
      err = errGasTooHighForCurrentBlock /\
      isTemporaryError err = true /\ isPermanentError err = false.
Proof.
  intros Hg Hgas. unfold attemptApplyMessage.
  rewrite (bind_run _ _ _ _ _ (ResetForNewMessage_run gt msg w g Hg)).
  rewrite (bind_run _ _ _ _ _
             (blockGasLimitError_run gt _ _ (afterReset_lookup gt msg g w Hg))).
  unfold vm.aboveBlockLimit, vm.tooHighForCurrentBlock.
  cbn [vm.reset vm.MsgGasLimit vm.gasConsumedByBlock].
  destruct (BlockGasLimit <? types.GasLimit msg)%N.
  - exists errGasAboveBlockLimit. repeat split.
  - apply N.ltb_lt in Hgas. rewrite Hgas.
    exists errGasTooHighForCurrentBlock. repeat split.
Qed.

(** C4. attemptApplyMessage returns whenever the cached tree and the gas
    tracker it is given exist.  The gas that the tracker records for the
    message is then within the message's gas limit, and every receipt
    charges the message's gas price times that gas; in particular the
    receipt of a message that reaches the settle step, that is, for which
    the VM was entered and did not fault.  The block gas limit is taken
    to fit a signed 64-bit integer. *)
Theorem attemptApplyMessage_gas_charge
  p st msg bh gt ancestors (w : World T S) c g :
  (BlockGasLimit < 2 ^ 63)%N ->
  cachedTrees w !! st = Some c ->
  gasTrackers w !! gt = Some g ->
  exists receipt err w' g' extra,
    attemptApplyMessage p st msg bh gt ancestors w = Done (receipt, err) w' /\
    gasTrackers w' !! gt = Some g' /\
    calls w' = calls w ++ extra /\
    (vm.gasConsumedByMessage g' <= types.GasLimit msg)%N /\
    (forall r, receipt = Some r ->
       types.GasAttoFIL r
         = types.GasPrice msg * Z.of_N (vm.gasConsumedByMessage g')) /\
    ((exists ctx gas, VmSend ctx gas ∈ extra) ->
       errors.IsFault err = false -> is_Some receipt).
Proof.
  intros Hblock Hc Hg.
  pose proof (attemptApplyMessage_steps p st msg bh gt ancestors w c g Hc Hg)
    as Hsteps.
  cbv zeta in Hsteps.
  pose proof (afterReset_lookup gt msg g w Hg) as Hg0.
  assert (forall err e,
            attemptApplyMessage p st msg bh gt ancestors w
              = Done (Some (rejectionReceipt err), e) (afterReset gt msg g w) ->
            exists receipt err w' g' extra,
              attemptApplyMessage p st msg bh gt ancestors w = Done (receipt, err) w' /\
              gasTrackers w' !! gt = Some g' /\
              calls w' = calls w ++ extra /\
              (vm.gasConsumedByMessage g' <= types.GasLimit msg)%N /\
              (forall r, receipt = Some r ->
                 types.GasAttoFIL r
                   = types.GasPrice msg * Z.of_N (vm.gasConsumedByMessage g')) /\
              ((exists ctx gas, VmSend ctx gas ∈ extra) ->
                 errors.IsFault err = false -> is_Some receipt)) as Hturned.
  { intros err e Hrun.
    exists (Some (rejectionReceipt err)), e, (afterReset gt msg g w),
      (vm.reset msg g), [].
    repeat split; try assumption.
    - simpl. symmetry. apply app_nil_r.
    - simpl. lia.
    - intros r Hr. injection Hr as <-. simpl. unfold types.ZeroAttoFIL. lia.
    - intros _ _. eexists. reflexivity. }
  destruct (vm.aboveBlockLimit BlockGasLimit (vm.reset msg g)) eqn:Habove;
    [eapply Hturned; exact Hsteps |].
  destruct (vm.tooHighForCurrentBlock BlockGasLimit (vm.reset msg g));
    [eapply Hturned; exact Hsteps |].
  clear Hturned.
  destruct Hsteps as (extra & Hreads & Hsteps).
  assert (forall extra' receipt e,
            Forall (readCall st) extra' ->
            attemptApplyMessage p st msg bh gt ancestors w
              = Done (receipt, e) (appended extra' (afterReset gt msg g w)) ->
            (forall r, receipt = Some r -> types.GasAttoFIL r = 0) ->
            (receipt = None -> errors.IsFault e = true) ->
            exists receipt err w' g' extra,
              attemptApplyMessage p st msg bh gt ancestors w = Done (receipt, err) w' /\
              gasTrackers w' !! gt = Some g' /\
              calls w' = calls w ++ extra /\
              (vm.gasConsumedByMessage g' <= types.GasLimit msg)%N /\
              (forall r, receipt = Some r ->
                 types.GasAttoFIL r
                   = types.GasPrice msg * Z.of_N (vm.gasConsumedByMessage g')) /\
              ((exists ctx gas, VmSend ctx gas ∈ extra) ->
                 errors.IsFault err = false -> is_Some receipt)) as Hexit.
  { intros extra' receipt e Hextra' Hrun Hzero Hnone.
    exists receipt, e, (appended extra' (afterReset gt msg g w)),
      (vm.reset msg g), extra'.
    repeat split; try assumption.
    - simpl. lia.
    - intros r Hr. rewrite (Hzero r Hr). simpl. lia.
    - intros Hin _. destruct (Forall_readCall_no_VmSend st extra' Hextra' Hin). }
  destruct (resolution (types.From msg) st (base w) c (storage w))
    as [[fromAddr found] err].
  destruct (notNil err).
  { eapply Hexit; [exact Hreads | exact Hsteps | discriminate | reflexivity]. }
  destruct (negb found).
  { eapply Hexit; [exact Hreads | exact Hsteps | | discriminate].
    intros r Hr. injection Hr as <-. reflexivity. }
  destruct (state.read (base w) c fromAddr) as [fromActor err'].
  destruct (state.IsActorNotFoundError err').
  { eapply Hexit; [exact Hreads | exact Hsteps | | discriminate].
    intros r Hr. injection Hr as <-. reflexivity. }
  destruct (notNil err').
  { eapply Hexit; [exact Hreads | exact Hsteps | discriminate | reflexivity]. }
  cbv zeta in Hsteps.
  destruct (notNil (Validate (validator p) msg fromActor)).
  { exists (Some (rejectionReceipt (Validate (validator p) msg fromActor))),
      (Validate (validator p) msg fromActor),
      (appended (extra ++ [ValidatorValidate msg fromActor]) (afterReset gt msg g w)),
      (vm.reset msg g), (extra ++ [ValidatorValidate msg fromActor]).
    repeat split; try assumption.
    - simpl. lia.
    - intros r Hr. injection Hr as <-. simpl. unfold types.ZeroAttoFIL. lia.
    - intros _ _. eexists. reflexivity. }
  clear Hexit.
  unfold vm.aboveBlockLimit in Habove. apply N.ltb_ge in Habove.
  cbn [vm.reset vm.MsgGasLimit] in Habove.
  set (w1 := appended _ _) in Hsteps.
  destruct (execute_run p st msg bh gt ancestors fromActor w1 c (vm.reset msg g))
    as (receipt & e & w' & g' & extra' & Hrun & Hg' & Hlimit & Hused & Hcalls
        & Hcharge & Hsettle).
  - exact Hc.
  - exact Hg0.
  - simpl. lia.
  - simpl. lia.
  - exists receipt, e, w', g', ((extra ++ [ValidatorValidate msg fromActor]) ++ extra').
    rewrite Hsteps. split; [exact Hrun |].
    split; [exact Hg' |].
    split. { rewrite Hcalls. unfold w1. simpl. rewrite <- !app_assoc. reflexivity. }
    split; [exact Hused |].
    split; [exact Hcharge |].
    intros (ctx & gas & Hin) Hnofault. apply Hsettle; [| exact Hnofault].
    exists ctx, gas.
    apply elem_of_app in Hin as [Hin | Hin]; [| exact Hin].
    exfalso. apply elem_of_app in Hin as [Hin | Hin].
    + apply (Forall_readCall_no_VmSend st extra Hreads). eauto.
    + apply list_elem_of_singleton in Hin. discriminate.
Qed.

Lemma readCall_not_entersVM st c : readCall st c -> ~ entersVM c.
Proof. destruct c; simpl; tauto. Qed.

(** The nonce rule classifies: "nonce too low" is a permanent error and no
    temporary one, "nonce too high" a temporary error and no permanent
    one. *)
Lemma checkNonce_cases msg fromActor :
  let nonce := types.CallSeqNum msg in
  let seq := actor.CallSeqNum fromActor in
  ((nonce < seq)%N -> checkNonce msg fromActor = errNonceTooLow) /\
  ((seq < nonce)%N -> checkNonce msg fromActor = errNonceTooHigh) /\
  (nonce = seq -> checkNonce msg fromActor = nil_error).
Proof.
  cbv zeta. unfold checkNonce. repeat split.
  - intros Hlt. apply N.ltb_lt in Hlt. rewrite Hlt. reflexivity.
  - intros Hgt.
    assert ((types.CallSeqNum msg <? actor.CallSeqNum fromActor)%N = false)
      as -> by (apply N.ltb_ge; lia).
    apply N.ltb_lt in Hgt. rewrite Hgt. reflexivity.
  - intros ->. rewrite !N.ltb_irrefl. reflexivity.
Qed.

(** An error of the checks of the envelope is a permanent error and no
    temporary one. *)
Lemma checkEnvelope_permanent verify accountCode msg fromActor :
  let err := checkEnvelope verify accountCode msg fromActor in
  err <> nil_error ->
  isPermanentError err = true /\ isTemporaryError err = false.
Proof.
  cbv zeta. unfold checkEnvelope.
  destruct (negb (verify msg)); [split; reflexivity |].
  destruct (bool_decide (types.From msg = types.To msg)); [split; reflexivity |].
  destruct (negb (actor.Code fromActor =? accountCode)%N); [split; reflexivity |].
  destruct (types.Value msg <? 0)%Z; [split; reflexivity |].
  intros Hnil. contradiction.
Qed.

(** The verdict of the default validator on a sender that exists. *)
Lemma defaultMessageValidator_verdict verify accountCode msg fromActor :
  let envelope := checkEnvelope verify accountCode msg fromActor in
  let verdict :=
    Validate (defaultMessageValidator verify accountCode) msg (Some fromActor) in
  (envelope <> nil_error -> verdict = envelope) /\
  (envelope = nil_error -> verdict = checkNonce msg fromActor).
Proof.
  cbv zeta. cbn [Validate defaultMessageValidator].
  split.
  - intros Hnil. apply notNil_true in Hnil. rewrite Hnil. reflexivity.
  - intros Hnil. apply notNil_false in Hnil. rewrite Hnil. reflexivity.
Qed.

(** C3, as amended.  The gas check comes before the validation, and the
    validator is whatever the processor was configured with.  For a
    message whose sender resolves to an actor record of the tree:

    - when the gas limit does not fit the block, the attempt ends at the
      gas check whatever the nonce: with the permanent error "gas above
      block limit" when the limit exceeds the block gas limit, with the
      temporary error "gas too high for current block" when it only
      exceeds what is left of the block;
    - when the gas limit fits, the validator is asked: an error of the
      validator ends the attempt with that error and a receipt that
      charges no gas, an acceptance leads to the execution of the message;
      nothing happened up to there but the reset of the gas tracker and
      calls that do not enter the VM;
    - directMessageValidator accepts whatever the nonce;
    - the default validator answers a nonce strictly below the sender's
      recorded sequence number with a permanent error that is no
      temporary one ("nonce too low" when the envelope of the message is
      in order); a nonce strictly above it, on a message whose envelope is
      in order, with "nonce too high", a temporary error that is no
      permanent one; it accepts an equal nonce on a message whose envelope
      is in order; an envelope that is not in order (signature, self-send,
      sender not an account, negative value) is a permanent error whatever
      the nonce. *)
Theorem attemptApplyMessage_nonce_classification
  p st msg bh gt ancestors (w : World T S) c g fromAddr fromActor :
  cachedTrees w !! st = Some c ->
  gasTrackers w !! gt = Some g ->
  resolution (types.From msg) st (base w) c (storage w)
    = (fromAddr, true, nil_error) ->
  state.read (base w) c fromAddr = (Some fromActor, nil_error) ->
  let nonce := types.CallSeqNum msg in
  let seq := actor.CallSeqNum fromActor in
  let run := attemptApplyMessage p st msg bh gt ancestors w in
  let w0 := afterReset gt msg g w in
  let verdict := Validate (validator p) msg (Some fromActor) in
  ((BlockGasLimit < types.GasLimit msg)%N ->
     run = Done (Some (rejectionReceipt errGasAboveBlockLimit),
                 errGasAboveBlockLimit) w0 /\
     isPermanentError errGasAboveBlockLimit = true /\
     isTemporaryError errGasAboveBlockLimit = false) /\
  ((types.GasLimit msg <= BlockGasLimit)%N ->
   (BlockGasLimit < types.GasLimit msg + vm.gasConsumedByBlock g)%N ->
     run = Done (Some (rejectionReceipt errGasTooHighForCurrentBlock),
                 errGasTooHighForCurrentBlock) w0 /\
     isTemporaryError errGasTooHighForCurrentBlock = true /\
     isPermanentError errGasTooHighForCurrentBlock = false) /\
  ((types.GasLimit msg + vm.gasConsumedByBlock g <= BlockGasLimit)%N ->
   exists extra,
     Forall (fun c => ~ entersVM c) extra /\
     let w' := appended extra w0 in
     (verdict <> nil_error ->
        run = Done (Some (rejectionReceipt verdict), verdict) w' /\
        types.GasAttoFIL (rejectionReceipt verdict) = types.ZeroAttoFIL) /\
     (verdict = nil_error ->
        run = execute p st msg bh gt ancestors (Some fromActor) w')) /\
  (validator p = directMessageValidator -> verdict = nil_error) /\
  (forall verify accountCode,
     validator p = defaultMessageValidator verify accountCode ->
     let envelope := checkEnvelope verify accountCode msg fromActor in
     ((nonce < seq)%N ->
        isPermanentError verdict = true /\ isTemporaryError verdict = false /\
        (envelope = nil_error -> verdict = errNonceTooLow)) /\
     ((seq < nonce)%N -> envelope = nil_error ->
        verdict = errNonceTooHigh /\
        isTemporaryError verdict = true /\ isPermanentError verdict = false) /\
     (nonce = seq -> envelope = nil_error -> verdict = nil_error) /\
     (envelope <> nil_error ->
        verdict = envelope /\
        isPermanentError verdict = true /\ isTemporaryError verdict = false)).
Proof.
  intros Hc Hg Hres Hread. cbv zeta.
  pose proof (attemptApplyMessage_steps p st msg bh gt ancestors w c g Hc Hg)
    as Hsteps.
  cbv zeta in Hsteps.
  unfold vm.aboveBlockLimit, vm.tooHighForCurrentBlock in Hsteps.
  cbn [vm.reset vm.MsgGasLimit vm.gasConsumedByBlock] in Hsteps.
  split; [| split; [| split; [| split]]].
  - intros Habove. apply N.ltb_lt in Habove. rewrite Habove in Hsteps.
    split; [exact Hsteps |]. split; reflexivity.
  - intros Hbelow Hhigh.
    apply N.ltb_ge in Hbelow. apply N.ltb_lt in Hhigh.
    rewrite Hbelow, Hhigh in Hsteps.
    split; [exact Hsteps |]. split; reflexivity.
  - intros Hfits.
    assert ((BlockGasLimit <? types.GasLimit msg)%N = false) as Habove
      by (apply N.ltb_ge; lia).
    assert ((BlockGasLimit <? types.GasLimit msg + vm.gasConsumedByBlock g)%N
            = false) as Hhigh by (apply N.ltb_ge; lia).
    rewrite Habove, Hhigh in Hsteps.
    destruct Hsteps as (extra & Hreads & Hsteps).
    rewrite Hres in Hsteps.
    change (notNil nil_error) with false in Hsteps. cbv iota in Hsteps.
    cbn [negb] in Hsteps. rewrite Hread in Hsteps.
    cbn [state.IsActorNotFoundError] in Hsteps.
    change (notNil nil_error) with false in Hsteps. cbv iota in Hsteps.
    exists (extra ++ [ValidatorValidate msg (Some fromActor)]).
    split.
    { apply Forall_app. split.
      - eapply Forall_impl; [exact Hreads | apply readCall_not_entersVM].
      - repeat constructor. simpl. tauto. }
    split.
    + intros Hverdict. apply notNil_true in Hverdict.
      rewrite Hverdict in Hsteps. split; [exact Hsteps | reflexivity].
    + intros Hverdict. apply notNil_false in Hverdict.
      rewrite Hverdict in Hsteps. exact Hsteps.
  - intros ->. reflexivity.
  - intros verify accountCode ->.
    destruct (defaultMessageValidator_verdict verify accountCode msg fromActor)
      as (Hbad & Hgood).
    destruct (checkNonce_cases msg fromActor) as (Hlow & Hhigh & Hequal).
    pose proof (checkEnvelope_permanent verify accountCode msg fromActor)
      as Henvelope.
    cbv zeta in Hbad, Hgood, Henvelope.
    split; [| split; [| split]].
    + intros Hlt.
      destruct (decide (checkEnvelope verify accountCode msg fromActor = nil_error))
        as [Hnil | Hnil].
      * rewrite (Hgood Hnil), (Hlow Hlt). repeat split.
      * rewrite (Hbad Hnil).
        destruct (Henvelope Hnil) as (Hperm & Htemp).
        split; [exact Hperm |]. split; [exact Htemp |].
        intros Hnil'. contradiction.
    + intros Hgt Hnil. rewrite (Hgood Hnil), (Hhigh Hgt). repeat split.
    + intros Heq Hnil. rewrite (Hgood Hnil). apply Hequal. exact Heq.
    + intros Hnil. rewrite (Hbad Hnil).
      destruct (Henvelope Hnil) as (Hperm & Htemp). repeat split; assumption.
Qed.

End ApplicationProperties.

(** ** The tip-set entry point, the batch entry point and the direct one *)

Section EntryPoints.

Context {T S : Type} `{!state.Tree T} `{!Collaborators T S}.

(** C8. When the height of the tip-set cannot be determined, ProcessTipSet
    returns at once: no receipts, a fault that wraps the error of the
    height, and a world in which nothing happened, so that no VM was
    constructed and no message applied.  The empty tip-set is such a
    tip-set. *)
Theorem ProcessTipSet_without_height p ts msgs (w : World T S) :
  (block.TipSet_Height ts).2 <> nil_error \/ ts = [] ->
  exists err,
    ProcessTipSet p ts msgs w = Done ([], err) w /\
    err = errors.FaultErrorWrap (block.TipSet_Height ts).2 "processing empty tipset" /\
    errors.IsFault err = true.
Proof.
  intros Hheight.
  assert ((block.TipSet_Height ts).2 <> nil_error) as Herr.
  { destruct Hheight as [Herr | ->]; [exact Herr | discriminate]. }
  unfold ProcessTipSet.
  destruct (block.TipSet_Height ts) as [h err]. simpl in *.
  apply notNil_true in Herr. rewrite Herr.
  eexists. repeat split.
Qed.

(** C1 as the code has it.  The body of ApplyMessagesAndPayRewards is
    commented out: whatever the messages, it pays no reward and applies
    no message (the world, call log included, is as before), and returns
    no results together with the error "re-write or delete". *)
Theorem ApplyMessagesAndPayRewards_is_a_stub
  p messages minerOwnerAddr bh ancestors (w : World T S) :
  ApplyMessagesAndPayRewards p messages minerOwnerAddr bh ancestors w
    = Done ([], errors.Foreign "re-write or delete") w.
Proof. reflexivity. Qed.

(** C9. ApplyMessageDirect returns an empty byte slice and a nil error,
    whatever its arguments, in a world in which nothing happened: neither
    the state tree nor the storage map was read or written. *)
Theorem ApplyMessageDirect_does_nothing
  from to nonce val method params (w : World T S) :
  ApplyMessageDirect from to nonce val method params w = Done ([], nil_error) w.
Proof. reflexivity. Qed.

End EntryPoints.

(** ** The properties on the node held in memory *)

(** Resolving the ID address of the account 100. *)
Lemma ResolveAddress_ID_at_account :
  address.protocol (IDAddr 100) = address.ID /\
  (ResolveAddress (IDAddr 100) example.st example.gt (example.world 0)
     = Done (IDAddr 100, true, nil_error) (example.world 0) /\
   bind (ResolveAddress (IDAddr 100) example.st example.gt)
        (fun r => ResolveAddress r.1.1 example.st example.gt) (example.world 0)
     = ResolveAddress (IDAddr 100) example.st example.gt (example.world 0)).
Proof.
  split; [reflexivity |].
  apply ResolveAddress_ID_unchanged_idempotent. reflexivity.
Defined.

(** C2, the claim as stated fails.  One unit of gas is consumed in the
    block already and the message asks for the whole block gas limit: its
    gas limit exceeds what remains of the block, it is turned away with a
    receipt that charges no gas and without any call, but the error is
    "gas too high for current block", which isPermanentError does not
    accept and isTemporaryError does. *)
Lemma gas_too_high_for_current_block_is_temporary :
  let msg := example.transfer 5 10000000 in
  (BlockGasLimit < types.GasLimit msg + 1)%N /\
  exists receipt w',
    attemptApplyMessage example.processor example.st msg example.height
        example.gt [] (example.world 1)
      = Done (Some receipt, errGasTooHighForCurrentBlock) w' /\
    types.GasAttoFIL receipt = 0 /\
    calls w' = [] /\
    isPermanentError errGasTooHighForCurrentBlock = false /\
    isTemporaryError errGasTooHighForCurrentBlock = true.
Proof.
  cbv zeta. split; [reflexivity |].
  eexists _, _. split; [vm_compute; reflexivity |].
  repeat split.
Qed.

(** The gas check on a message that asks for more than the block gas
    limit. *)
Lemma attemptApplyMessage_gas_check_above_block_limit :
  exists err,
    attemptApplyMessage example.processor example.st
        (example.transfer 5 10000001) example.height example.gt []
        (example.world 1)
      = Done (Some (rejectionReceipt err), err)
          (afterReset example.gt (example.transfer 5 10000001)
             (example.tracker 1) (example.world 1)) /\
    types.GasAttoFIL (rejectionReceipt err) = types.ZeroAttoFIL /\
    calls (afterReset example.gt (example.transfer 5 10000001)
             (example.tracker 1) (example.world 1))
      = calls (example.world 1) /\
    err = errGasAboveBlockLimit /\
    isPermanentError err = true /\ isTemporaryError err = false.
Proof.
  exact (attemptApplyMessage_gas_check example.processor example.st
           (example.transfer 5 10000001) example.height example.gt []
           (example.world 1) (example.tracker 1) eq_refl eq_refl).
Defined.

(** The claim that the nonce alone decides fails on the node of the
    examples, where the account 100 has the recorded sequence number 5.
    A transfer with nonce 3 whose gas limit fits the block but not what is
    left of it ends with "gas too high for current block", a temporary
    error that is no permanent one.  A transfer with nonce 7 whose gas
    limit is above the block gas limit ends with "gas above block limit",
    a permanent error that is no temporary one.  And a processor that is
    configured with directMessageValidator executes a transfer with nonce
    7: there is no error at all. *)
Lemma nonce_does_not_decide_alone :
  state.read (base (example.world 0)) state.emptyCache (IDAddr 100)
    = (Some (example.account 5 1000), nil_error) /\
  (types.CallSeqNum (example.transfer 3 1000)
     < actor.CallSeqNum (example.account 5 1000))%N /\
  attemptApplyMessage example.processor example.st (example.transfer 3 1000)
      example.height example.gt [] (example.world 9999500)
    = Done (Some (rejectionReceipt errGasTooHighForCurrentBlock),
            errGasTooHighForCurrentBlock)
        (afterReset example.gt (example.transfer 3 1000)
           (example.tracker 9999500) (example.world 9999500)) /\
  isPermanentError errGasTooHighForCurrentBlock = false /\
  isTemporaryError errGasTooHighForCurrentBlock = true /\
  (actor.CallSeqNum (example.account 5 1000)
     < types.CallSeqNum (example.transfer 7 10000001))%N /\
  attemptApplyMessage example.processor example.st
      (example.transfer 7 10000001) example.height example.gt []
      (example.world 0)
    = Done (Some (rejectionReceipt errGasAboveBlockLimit), errGasAboveBlockLimit)
        (afterReset example.gt (example.transfer 7 10000001)
           (example.tracker 0) (example.world 0)) /\
  isTemporaryError errGasAboveBlockLimit = false /\
  isPermanentError errGasAboveBlockLimit = true /\
  exists w',
    attemptApplyMessage
        (NewConfiguredProcessor directMessageValidator vm.DefaultActors)
        example.st (example.transfer 7 1000) example.height example.gt []
        (example.world 0)
      = Done (Some {| types.ExitCode := 0%N; types.Return := [];
                      types.GasAttoFIL := 36 |}, nil_error) w'.
Proof.
  split; [vm_compute; reflexivity |].
  split; [reflexivity |].
  split; [vm_compute; reflexivity |].
  split; [reflexivity |]. split; [reflexivity |].
  split; [reflexivity |].
  split; [vm_compute; reflexivity |].
  split; [reflexivity |]. split; [reflexivity |].
  eexists. vm_compute. reflexivity.
Qed.

(** The default validator on transfers from the account 100, whose
    recorded sequence number is 5: a transfer with nonce 7 whose gas limit
    fits is turned away with "nonce too high". *)
Lemma attemptApplyMessage_nonce_too_high :
  exists extra,
    Forall (fun c => ~ entersVM c) extra /\
    attemptApplyMessage example.processor example.st (example.transfer 7 1000)
        example.height example.gt [] (example.world 0)
      = Done (Some (rejectionReceipt errNonceTooHigh), errNonceTooHigh)
          (appended extra
             (afterReset example.gt (example.transfer 7 1000)
                (example.tracker 0) (example.world 0))) /\
    isTemporaryError errNonceTooHigh = true /\
    isPermanentError errNonceTooHigh = false.
Proof.
  destruct (attemptApplyMessage_nonce_classification example.processor
              example.st (example.transfer 7 1000) example.height example.gt []
              (example.world 0) state.emptyCache (example.tracker 0)
              (IDAddr 100) (example.account 5 1000) eq_refl eq_refl)
    as (_ & _ & Hfits & _ & Hdefault).
  - reflexivity.
  - vm_compute. reflexivity.
  - destruct Hfits as (extra & Hextra & Hrejected & _).
    { vm_compute. discriminate. }
    destruct (Hdefault (fun _ => true) 1%N eq_refl)
      as (_ & Hhigh & _).
    destruct Hhigh as (Hverdict & Htemp & Hperm); [reflexivity | reflexivity |].
    exists extra. split; [exact Hextra |].
    split.
    + rewrite <- Hverdict. apply Hrejected. rewrite Hverdict. discriminate.
    + split; reflexivity.
Defined.

(** The gas charge of a transfer that is executed: the VM charges 7 and
    then 5 units, the gas price is 3. *)
Lemma attemptApplyMessage_gas_charge_of_transfer :
  exists receipt err w' g' extra,
    attemptApplyMessage example.processor example.st (example.transfer 5 1000)
        example.height example.gt [] (example.world 0)
      = Done (receipt, err) w' /\
    gasTrackers w' !! example.gt = Some g' /\
    calls w' = calls (example.world 0) ++ extra /\
    (vm.gasConsumedByMessage g' <= types.GasLimit (example.transfer 5 1000))%N /\
    (forall r, receipt = Some r ->
       types.GasAttoFIL r
         = types.GasPrice (example.transfer 5 1000)
           * Z.of_N (vm.gasConsumedByMessage g')) /\
    ((exists ctx gas, VmSend ctx gas ∈ extra) ->
       errors.IsFault err = false -> is_Some receipt).
Proof.
  exact (attemptApplyMessage_gas_charge example.processor example.st
           (example.transfer 5 1000) example.height example.gt []
           (example.world 0) state.emptyCache (example.tracker 0)
           eq_refl eq_refl eq_refl).
Defined.

(** The run behind it: the receipt charges 3 * 12. *)
Example transfer_is_charged_for_twelve_units :
  exists w',
    attemptApplyMessage example.processor example.st (example.transfer 5 1000)
        example.height example.gt [] (example.world 0)
      = Done (Some {| types.ExitCode := 0%N; types.Return := [];
                      types.GasAttoFIL := 36 |}, nil_error) w' /\
    gasTrackers w' !! example.gt
      = Some {| vm.MsgGasLimit := 1000%N; vm.gasConsumedByBlock := 0%N;
                vm.gasConsumedByMessage := 12%N |}.
Proof. eexists. split; vm_compute; reflexivity. Qed.

(** A query of a key that the init actor does not know. *)
Lemma CallQueryMethod_of_unknown_key :
  exists r w' err,
    CallQueryMethod example.processor example.unknownKey 0%N [] Undef None
        (example.world 0)
      = Done r w' /\
    r = ([], 1%N, err) /\
    errors.IsApplyErrorPermanent err = true /\
    err <> nil_error /\
    isTemporaryError err = false /\
    Forall (fun c => ~ entersVM c) (calls w').
Proof.
  destruct (CallQueryMethod_absent_target_permanent example.processor
              example.unknownKey 0%N [] Undef None (example.world 0))
    as (r & w' & extra & g & Hrun & _ & _ & Hcalls & _ & Habsent).
  destruct Habsent as (err & Hr & Hperm & Hnil & _ & Htemp & _ & Hnovm).
  - vm_compute. reflexivity.
  - left. vm_compute. reflexivity.
  - exists r, w', err. rewrite Hcalls. auto 10.
Defined.

(** The empty tip-set. *)
Lemma ProcessTipSet_of_empty_tipset :
  exists err,
    ProcessTipSet example.processor [] [] (example.world 0)
      = Done ([], err) (example.world 0) /\
    err = errors.FaultErrorWrap (block.TipSet_Height []).2 "processing empty tipset" /\
    errors.IsFault err = true.
Proof.
  exact (ProcessTipSet_without_height example.processor [] []
           (example.world 0) (or_intror eq_refl)).
Defined.

(** Provisioning a key that the init actor does not know, on behalf of a
    caller whose gas tracker is behind [example.gt]: the two calls to the
    init actor run under the tracker behind pointer 1, which exec finds
    with nothing used and the lookup with the 1500 units that exec
    charged; afterwards it holds 1600 units, and the caller's tracker,
    behind pointer 0, is as it was. *)
Lemma getOrCreateActor_of_unknown_key :
  exists r w' reads tail,
    getOrCreateActor example.st example.unknownKey example.gt (example.world 0)
      = Done r w' /\
    calls w'
      = calls (example.world 0)
        ++ reads
        ++ [execCall (Some example.initActor) example.st 1%nat
              example.unknownKey
              {| vm.MsgGasLimit := 10000%N; vm.gasConsumedByBlock := 0%N;
                 vm.gasConsumedByMessage := 0%N |};
            idLookupCall (Some example.initActor) example.st 1%nat
              example.unknownKey
              {| vm.MsgGasLimit := 10000%N; vm.gasConsumedByBlock := 0%N;
                 vm.gasConsumedByMessage := 1500%N |}]
        ++ tail /\
    Forall (readCall example.st) reads /\
    Forall (readCall example.st) tail /\
    gasTrackers w'
      = [example.tracker 0;
         {| vm.MsgGasLimit := 10000%N; vm.gasConsumedByBlock := 0%N;
            vm.gasConsumedByMessage := 1600%N |}] /\
    gasTrackers w' !! example.gt = Some (example.tracker 0).
Proof.
  destruct (getOrCreateActor_provisions_under_fresh_tracker example.st
              example.unknownKey example.gt (example.world 0) state.emptyCache
              (example.tracker 0) eq_refl eq_refl)
    as (r & w' & extra & Hrun & Hcalls & Hcaller & _ & Hprovisioned & _).
  destruct Hprovisioned
    as (reads & tail & -> & Hreads & Htail & _ & _ & Hgas & _).
  { vm_compute. repeat split. }
  exists r, w', reads, tail.
  split; [exact Hrun |].
  split; [rewrite Hcalls; vm_compute; reflexivity |].
  split; [exact Hreads |]. split; [exact Htail |].
  split; [rewrite Hgas; vm_compute; reflexivity | exact Hcaller].
Defined.

(** The run behind it: the new account gets the ID 1000, the 1600 units
    that the init actor charges are recorded by the new tracker, behind
    pointer 1, and the caller's tracker, behind pointer 0, records
    nothing. *)
Example provisioning_charges_its_own_tracker :
  exists act w',
    getOrCreateActor example.st example.unknownKey example.gt (example.world 0)
      = Done (Some act, IDAddr 1000, nil_error) w' /\
    gasTrackers w'
      = [example.tracker 0;
         {| vm.MsgGasLimit := 10000%N; vm.gasConsumedByBlock := 0%N;
            vm.gasConsumedByMessage := 1600%N |}] /\
    base w' = base (example.world 0).
Proof. eexists _, _. split; [| split]; vm_compute; reflexivity. Qed.

(** A commit is what carries writes to the base tree: after the
    provisioning above, the base tree has no actor 1000 until the cached
    tree is committed. *)
Example commit_writes_the_base_tree :
  exists r w' w'',
    getOrCreateActor example.st example.unknownKey example.gt (example.world 0)
      = Done r w' /\
    base w' !! IDAddr 1000 = None /\
    CachedTree_Commit example.st w' = Done tt w'' /\
    base w'' !! IDAddr 1000 = Some (example.account 0 0).
Proof. eexists _, _, _. repeat split; vm_compute; reflexivity. Qed.

(** * Further properties of the processor *)

(** ** The classifiers *)

(** X1. isTemporaryError and isPermanentError never both accept an error,
    and neither accepts the nil error.  They compare by identity with
    eleven values: an error that either accepts is one of the processor's
    own error variables or the entry "cannot transfer negative value" of
    the table of package errors; an error built by wrapping (a fault, a
    permanent or temporary apply error) is accepted by neither. *)
Theorem classifiers_exclusive err :
  isTemporaryError err && isPermanentError err = false /\
  isTemporaryError nil_error = false /\
  isPermanentError nil_error = false /\
  (isTemporaryError err || isPermanentError err = true ->
   (exists s, err = errors.Processor s) \/
   err = errors.Errors errors.ErrCannotTransferNegativeValue) /\
  (errors.IsFault err || errors.IsApplyErrorPermanent err
     || errors.IsApplyErrorTemporary err = true ->
   isTemporaryError err || isPermanentError err = false).
Proof.
  split; [| split; [reflexivity | split; [reflexivity | split]]].
  - destruct err as [| [] | | | | | | |]; reflexivity.
  - unfold isTemporaryError, isPermanentError.
    intros Hacc.
    repeat (apply orb_true_iff in Hacc as [Hacc | Hacc]);
      apply bool_decide_eq_true in Hacc; subst err; eauto.
  - destruct err; simpl; try discriminate; reflexivity.
Qed.

(** X2. Of the eleven error variables of the processor, ten are classified
    exactly one way: "sender account not found", "nonce too high" and "gas
    too high for current block" as temporary, the others as permanent.
    The eleventh, "message gas price is zero", is classified neither
    way. *)
Theorem error_variables_classified s :
  isTemporaryError (errors.Processor s)
    = bool_decide (s ∈ [errors.FromAccountNotFound; errors.NonceTooHigh;
                        errors.GasTooHighForCurrentBlock]) /\
  isPermanentError (errors.Processor s)
    = bool_decide (s ∉ [errors.FromAccountNotFound; errors.NonceTooHigh;
                        errors.GasTooHighForCurrentBlock; errors.GasPriceZero]).
Proof. destruct s; split; reflexivity. Qed.

(** ** Frames *)

Section Frames.

Context {T S : Type} `{!state.Tree T} `{!Collaborators T S}.

Lemma confined_refl st gt (w : World T S) : confined st gt w w.
Proof.
  split; auto. exists []. split; [symmetry; apply app_nil_r | constructor].
Qed.

Lemma confined_trans st gt (w1 w2 w3 : World T S) :
  confined st gt w1 w2 -> confined st gt w2 w3 -> confined st gt w1 w3.
Proof.
  intros [Hb1 Ht1 Hg1 (e1 & Hc1 & Hf1)] [Hb2 Ht2 Hg2 (e2 & Hc2 & Hf2)]. split.
  - congruence.
  - intros i Hi. rewrite (Ht2 i Hi). exact (Ht1 i Hi).
  - intros i gi Hi Hgi. exact (Hg2 i gi Hi (Hg1 i gi Hi Hgi)).
  - exists (e1 ++ e2). split.
    + rewrite Hc2, Hc1, app_assoc. reflexivity.
    + apply Forall_app. split; assumption.
Qed.

Lemma confined_appended st gt extra (w : World T S) :
  Forall (fun c => ~ writesBase c) extra -> confined st gt w (appended extra w).
Proof. intros Hextra. split; simpl; auto. exists extra. auto. Qed.

Lemma confined_afterReset st gt msg g (w : World T S) :
  confined st gt w (afterReset gt msg g w).
Proof.
  split; simpl; auto.
  - intros i gi Hi Hgi. rewrite list_lookup_insert_ne by congruence. exact Hgi.
  - exists []. split; [symmetry; apply app_nil_r | constructor].
Qed.

Lemma confined_afterSend {R} st gt call g (r : vm.Reply S R) (w : World T S) :
  ~ writesBase call -> confined st gt w (afterSend st gt call g r w).
Proof.
  intros Hcall. split; simpl; auto.
  - intros i Hi. apply list_lookup_insert_ne. congruence.
  - intros i gi Hi Hgi. rewrite list_lookup_insert_ne by congruence. exact Hgi.
  - exists [call]. split; [reflexivity | repeat constructor; exact Hcall].
Qed.

Lemma provisions_confined st gt addr (w w' : World T S) :
  provisions st addr w w' -> confined st gt w w'.
Proof.
  intros [Hbase [c' Htrees] [new Hgas] (extra & Hcalls & Hlog)]. split.
  - exact Hbase.
  - intros i Hi. rewrite Htrees. apply list_lookup_insert_ne. congruence.
  - intros i gi _ Hgi. rewrite Hgas. apply lookup_app_l_Some. exact Hgi.
  - exists extra. split; [exact Hcalls |].
    eapply provisioningLog_no_base_write. exact Hlog.
Qed.

Lemma Forall_readCall_no_base_write st extra :
  Forall (readCall st) extra -> Forall (fun c => ~ writesBase c) extra.
Proof.
  intros Hreads. eapply Forall_impl; [exact Hreads |].
  apply readCall_no_base_write.
Qed.

End Frames.

(** ** The exits of attemptApplyMessage *)

Section Exits.

Context {T S : Type} `{!state.Tree T} `{!Collaborators T S}.

(** The last steps of attemptApplyMessage, case by case: the outcome of
    the lookup of the receiver and, when that succeeds, of the execution,
    as functions of the state they are handed. *)
Lemma execute_cases p st msg bh gt ancestors fromActor (w : World T S) c g :
  cachedTrees w !! st = Some c ->
  gasTrackers w !! gt = Some g ->
  exists toActor toAddr perr w2 c2,
    getOrCreateActor st (types.To msg) gt w = Done (toActor, toAddr, perr) w2 /\
    provisions st (types.To msg) w w2 /\
    cachedTrees w2 !! st = Some c2 /\
    gasTrackers w2 !! gt = Some g /\
    let run := execute p st msg bh gt ancestors fromActor w in
    if notNil perr then
      run = Done (None, errors.FaultErrorWrap perr "failed to get To actor") w2
    else
      let ctx := messageContext p st gt msg bh ancestors fromActor toActor toAddr in
      let r := Send ctx (viewOf w2 c2 g) in
      let w3 := afterSend st gt (VmSend ctx g) g r w2 in
      let vmErr := (vm.r_result r).2 in
      if errors.IsFault vmErr then run = Done (None, vmErr) w3
      else
        run = Done
                (Some {| types.ExitCode := (vm.r_result r).1.2;
                         types.Return := (vm.r_result r).1.1;
                         types.GasAttoFIL :=
                           types.MulBigInt (types.GasPrice msg)
                             (types.int64
                                (vm.gasConsumedByMessage
                                   (foldl vm.charge g (vm.r_charges r)))) |},
                 vmErr) w3.
Proof.
  intros Hc Hg. unfold execute.
  destruct (getOrCreateActor_run st (types.To msg) gt w c Hc)
    as ([[toActor toAddr] perr] & w2 & Hrun & Hprov).
  rewrite (bind_run _ _ _ _ _ Hrun).
  pose proof Hprov as [Hbase [c' Htrees] [new Hgas] _].
  assert (gasTrackers w2 !! gt = Some g) as Hg2.
  { rewrite Hgas. apply lookup_app_l_Some. exact Hg. }
  assert (cachedTrees w2 !! st = Some c') as Hc2.
  { rewrite Htrees. apply list_lookup_insert_eq. eapply lookup_lt_Some. exact Hc. }
  exists toActor, toAddr, perr, w2, c'.
  split; [exact Hrun |]. split; [exact Hprov |].
  split; [exact Hc2 |]. split; [exact Hg2 |]. cbv zeta.
  destruct (notNil perr); [reflexivity |].
  fold (messageContext p st gt msg bh ancestors fromActor toActor toAddr).
  erewrite bind_run;
    [| eapply (vm_Send_run _ _ st gt c' g);
       [reflexivity | reflexivity | exact Hc2 | exact Hg2]].
  cbv zeta. fold (viewOf w2 c' g).
  set (ctx := messageContext _ _ _ _ _ _ _ _ _).
  set (r := Send ctx (viewOf w2 c' g)).
  fold (afterSend st gt (VmSend ctx g) g r w2).
  destruct (vm.r_result r) as [[ret_ exitCode] vmErr]. cbn [fst snd].
  destruct (errors.IsFault vmErr); [reflexivity |].
  unfold GasUnits. cbn [vm.GasTracker vm.params ctx messageContext].
  unfold bind, loadGas. cbn [afterSend gasTrackers].
  rewrite list_lookup_insert_eq by (eapply lookup_lt_Some; exact Hg2).
  reflexivity.
Qed.

Lemma Forall_validated_no_base_write st extra msg fromActor :
  Forall (readCall st) extra ->
  Forall (fun c => ~ writesBase c) (extra ++ [ValidatorValidate msg fromActor]).
Proof.
  intros Hreads. apply Forall_app. split.
  - apply (Forall_readCall_no_base_write st). exact Hreads.
  - repeat constructor. simpl. tauto.
Qed.

(** Every run of attemptApplyMessage: it returns, a missing receipt comes
    with a fault, the run is confined to the cached tree and the gas
    tracker it is given, and the gas tracker ends with the message's gas
    limit. *)
Lemma attemptApplyMessage_outcome p st msg bh gt ancestors (w : World T S) c g :
  cachedTrees w !! st = Some c ->
  gasTrackers w !! gt = Some g ->
  exists receipt err w' g',
    attemptApplyMessage p st msg bh gt ancestors w = Done (receipt, err) w' /\
    (receipt = None -> errors.IsFault err = true) /\
    confined st gt w w' /\
    gasTrackers w' !! gt = Some g' /\
    vm.MsgGasLimit g' = types.GasLimit msg.
Proof.
  intros Hc Hg.
  pose proof (attemptApplyMessage_steps p st msg bh gt ancestors w c g Hc Hg)
    as Hsteps.
  cbv zeta in Hsteps.
  pose proof (afterReset_lookup gt msg g w Hg) as Hg0.
  assert (forall extra receipt e,
            Forall (fun c => ~ writesBase c) extra ->
            attemptApplyMessage p st msg bh gt ancestors w
              = Done (receipt, e) (appended extra (afterReset gt msg g w)) ->
            (receipt = None -> errors.IsFault e = true) ->
            exists receipt err w' g',
              attemptApplyMessage p st msg bh gt ancestors w = Done (receipt, err) w' /\
              (receipt = None -> errors.IsFault err = true) /\
              confined st gt w w' /\
              gasTrackers w' !! gt = Some g' /\
              vm.MsgGasLimit g' = types.GasLimit msg) as Hexit.
  { intros extra receipt e Hextra Hrun Hnone.
    exists receipt, e, (appended extra (afterReset gt msg g w)), (vm.reset msg g).
    split; [exact Hrun |]. split; [exact Hnone |].
    split; [| split; [exact Hg0 | reflexivity]].
    eapply confined_trans; [apply confined_afterReset |].
    apply confined_appended. exact Hextra. }
  destruct (vm.aboveBlockLimit BlockGasLimit (vm.reset msg g)).
  { eapply (Hexit []);
      [constructor | rewrite appended_nil; exact Hsteps | discriminate]. }
  destruct (vm.tooHighForCurrentBlock BlockGasLimit (vm.reset msg g)).
  { eapply (Hexit []);
      [constructor | rewrite appended_nil; exact Hsteps | discriminate]. }
  destruct Hsteps as (extra & Hreads & Hsteps).
  pose proof (Forall_readCall_no_base_write st extra Hreads) as Hquiet.
  destruct (resolution (types.From msg) st (base w) c (storage w))
    as [[fromAddr found] err].
  destruct (notNil err); [exact (Hexit _ _ _ Hquiet Hsteps (fun _ => eq_refl)) |].
  destruct (negb found); [apply (Hexit _ _ _ Hquiet Hsteps); discriminate |].
  destruct (state.read (base w) c fromAddr) as [fromActor err'].
  destruct (state.IsActorNotFoundError err');
    [apply (Hexit _ _ _ Hquiet Hsteps); discriminate |].
  destruct (notNil err'); [exact (Hexit _ _ _ Hquiet Hsteps (fun _ => eq_refl)) |].
  cbv zeta in Hsteps.
  pose proof (Forall_validated_no_base_write st extra msg fromActor Hreads)
    as Hquiet'.
  destruct (notNil (Validate (validator p) msg fromActor));
    [apply (Hexit _ _ _ Hquiet' Hsteps); discriminate |].
  clear Hexit. rewrite Hsteps.
  set (w1 := appended _ _).
  assert (confined st gt w w1) as Hw1.
  { eapply confined_trans; [apply confined_afterReset |].
    apply confined_appended. exact Hquiet'. }
  destruct (execute_cases p st msg bh gt ancestors fromActor w1 c (vm.reset msg g)
              Hc Hg0)
    as (toActor & toAddr & perr & w2 & c2 & _ & Hprov & Hc2 & Hg2 & Hrun).
  cbv zeta in Hrun.
  assert (confined st gt w w2) as Hw2.
  { eapply confined_trans; [exact Hw1 |].
    eapply provisions_confined. exact Hprov. }
  destruct (notNil perr).
  { exists None, (errors.FaultErrorWrap perr "failed to get To actor"), w2,
      (vm.reset msg g).
    split; [exact Hrun |]. split; [reflexivity |].
    split; [exact Hw2 |]. split; [exact Hg2 | reflexivity]. }
  set (ctx := messageContext _ _ _ _ _ _ _ _ _) in Hrun.
  set (r := Send ctx _) in Hrun.
  assert (confined st gt w (afterSend st gt (VmSend ctx (vm.reset msg g))
                              (vm.reset msg g) r w2)) as Hw3.
  { eapply confined_trans; [exact Hw2 |].
    apply confined_afterSend. simpl. tauto. }
  assert (gasTrackers (afterSend st gt (VmSend ctx (vm.reset msg g))
                         (vm.reset msg g) r w2) !! gt
          = Some (foldl vm.charge (vm.reset msg g) (vm.r_charges r))) as Hg3.
  { simpl. apply list_lookup_insert_eq. eapply lookup_lt_Some. exact Hg2. }
  destruct (errors.IsFault (vm.r_result r).2) eqn:Hfault.
  - eexists None, _, _, _. split; [exact Hrun |].
    split; [intros _; exact Hfault |]. split; [exact Hw3 |].
    split; [exact Hg3 | apply charges_limit].
  - eexists (Some _), _, _, _. split; [exact Hrun |].
    split; [discriminate |]. split; [exact Hw3 |].
    split; [exact Hg3 | apply charges_limit].
Qed.

(** X3. attemptApplyMessage returns whenever the cached tree and the gas
    tracker it is given exist, and it returns no receipt only together
    with a fault: every other outcome, whether a rejection or an
    execution, carries a receipt. *)
Theorem attemptApplyMessage_no_receipt_only_with_fault
  p st msg bh gt ancestors (w : World T S) c g :
  cachedTrees w !! st = Some c ->
  gasTrackers w !! gt = Some g ->
  exists receipt err w',
    attemptApplyMessage p st msg bh gt ancestors w = Done (receipt, err) w' /\
    (receipt = None -> errors.IsFault err = true).
Proof.
  intros Hc Hg.
  destruct (attemptApplyMessage_outcome p st msg bh gt ancestors w c g Hc Hg)
    as (receipt & err & w' & g' & Hrun & Hnone & _).
  exists receipt, err, w'. split; assumption.
Qed.

(** X4. attemptApplyMessage is confined to the two objects it is given:
    it does not write the base tree (it makes no commit and applies no
    tip-set), it changes no cached tree but the one behind [st] and no
    existing gas tracker but the one behind [gt], and it leaves that gas
    tracker with the gas limit of the message. *)
Theorem attemptApplyMessage_confined
  p st msg bh gt ancestors (w : World T S) c g :
  cachedTrees w !! st = Some c ->
  gasTrackers w !! gt = Some g ->
  exists r w' g',
    attemptApplyMessage p st msg bh gt ancestors w = Done r w' /\
    confined st gt w w' /\
    gasTrackers w' !! gt = Some g' /\
    vm.MsgGasLimit g' = types.GasLimit msg.
Proof.
  intros Hc Hg.
  destruct (attemptApplyMessage_outcome p st msg bh gt ancestors w c g Hc Hg)
    as (receipt & err & w' & g' & Hrun & _ & Hconf & Hg' & Hlimit).
  exists (receipt, err), w', g'. auto.
Qed.

End Exits.

Section SenderExits.

Context {T S : Type} `{!state.Tree T} `{!Collaborators T S}.





(** X8. A failure to look the receiver up or to provision it is a fault:
    when getOrCreateActor ends with an error, the execution step returns
    no receipt and a fault that wraps that error, in the world that
    getOrCreateActor left: the message is not executed. *)
Theorem execute_receiver_failure
  p st msg bh gt ancestors fromActor (w : World T S) c g toActor toAddr perr w2 :
  cachedTrees w !! st = Some c ->
  gasTrackers w !! gt = Some g ->
  getOrCreateActor st (types.To msg) gt w = Done (toActor, toAddr, perr) w2 ->
  perr <> nil_error ->
  execute p st msg bh gt ancestors fromActor w
    = Done (None, errors.FaultErrorWrap perr "failed to get To actor") w2 /\
  errors.IsFault (errors.FaultErrorWrap perr "failed to get To actor") = true /\
  forall ctx gas, VmSend ctx gas ∉ drop (length (calls w)) (calls w2).
Proof.
  intros Hc Hg Hrun Hperr.
  destruct (execute_cases p st msg bh gt ancestors fromActor w c g Hc Hg)
    as (toActor' & toAddr' & perr' & w2' & c2 & Hrun' & Hprov & _ & _ & Hexec).
  rewrite Hrun in Hrun'. injection Hrun' as <- <- <- <-.
  cbv zeta in Hexec. apply notNil_true in Hperr. rewrite Hperr in Hexec.
  split; [exact Hexec |]. split; [reflexivity |].
  intros ctx gas.
  destruct Hprov as [_ _ _ (extra & Hcalls & Hlog)].
  rewrite Hcalls, drop_app_length.
  eapply provisioningLog_no_VmSend. exact Hlog.
Qed.

(** X9. What the VM returns becomes the outcome of the message.  Once the
    receiver is at hand, the execution step calls the VM once, with the
    sender, the receiver, the message, the cached tree and the gas tracker
    of the attempt.  If the VM returns a fault, the step returns that
    fault and no receipt.  Otherwise it returns a receipt with the VM's
    exit code and return values, charging the gas price times the gas the
    tracker records after the call, converted to a signed 64-bit number,
    and next to it the VM's error unchanged, nil or not. *)
Theorem execute_vm_outcome
  p st msg bh gt ancestors fromActor (w : World T S) c g toActor toAddr w2 c2 :
  cachedTrees w !! st = Some c ->
  gasTrackers w !! gt = Some g ->
  getOrCreateActor st (types.To msg) gt w = Done (toActor, toAddr, nil_error) w2 ->
  cachedTrees w2 !! st = Some c2 ->
  let ctx := messageContext p st gt msg bh ancestors fromActor toActor toAddr in
  let r := Send ctx (viewOf w2 c2 g) in
  let w3 := afterSend st gt (VmSend ctx g) g r w2 in
  let used := vm.gasConsumedByMessage (foldl vm.charge g (vm.r_charges r)) in
  let vmErr := (vm.r_result r).2 in
  execute p st msg bh gt ancestors fromActor w
    = Done (if errors.IsFault vmErr then None
            else Some {| types.ExitCode := (vm.r_result r).1.2;
                         types.Return := (vm.r_result r).1.1;
                         types.GasAttoFIL :=
                           types.GasPrice msg * types.int64 used |},
            vmErr) w3.
Proof.
  intros Hc Hg Hrun Hc2. cbv zeta.
  destruct (execute_cases p st msg bh gt ancestors fromActor w c g Hc Hg)
    as (toActor' & toAddr' & perr' & w2' & c2' & Hrun' & _ & Hc2' & _ & Hexec).
  rewrite Hrun in Hrun'. injection Hrun' as <- <- <- <-.
  rewrite Hc2 in Hc2'. injection Hc2' as <-.
  cbv zeta in Hexec. change (notNil nil_error) with false in Hexec.
  cbv iota in Hexec.
  destruct (errors.IsFault (vm.r_result _).2); exact Hexec.
Qed.

End SenderExits.

(** ** Resolution and provisioning *)

Section ResolutionExits.

Context {T S : Type} `{!state.Tree T} `{!Collaborators T S}.

Lemma resolution_shape addr st (t : T) c (s : S) :
  let res := resolution addr st t c s in
  (res.1.2 = true -> res.2 = nil_error) /\
  (res.1.2 = false -> res.1.1 = Undef).
Proof.
  cbv zeta. unfold resolution.
  destruct (bool_decide (address.protocol addr = address.ID)).
  { split; [reflexivity | discriminate]. }
  destruct (state.read t c address.InitAddress) as [init err].
  destruct (notNil err); [split; [discriminate | reflexivity] |].
  destruct (LookupIDAddress (lookupContext init st) addr t c s)
    as [[id found] err'].
  destruct (notNil err'); [split; [discriminate | reflexivity] |].
  destruct found; cbn [negb]; [| split; [discriminate | reflexivity]].
  destruct (NewIDAddress id) as [idAddr err''].
  destruct (notNil err''); [split; [discriminate | reflexivity] |].
  split; [reflexivity | discriminate].
Qed.

(** X10. ResolveAddress only reads.  Whenever the cached tree exists it
    returns, having changed nothing in the store: the only calls are a
    read of the init actor through the cached tree and the init actor's
    lookup of the address.  Its results are consistent: an address that is
    found comes with a nil error, and when none is found the address
    returned is the undefined address. *)
Theorem ResolveAddress_only_reads addr st gt (w : World T S) c :
  cachedTrees w !! st = Some c ->
  exists idAddr found err extra,
    ResolveAddress addr st gt w = Done (idAddr, found, err) (appended extra w) /\
    Forall (resolveCall st addr) extra /\
    (found = true -> err = nil_error) /\
    (found = false -> idAddr = Undef).
Proof.
  intros Hc.
  destruct (ResolveAddress_run addr st gt w c Hc) as (extra & Hrun & Hextra).
  pose proof (resolution_shape addr st (base w) c (storage w)) as Hshape.
  cbv zeta in Hshape.
  destruct (resolution addr st (base w) c (storage w)) as [[idAddr found] err].
  exists idAddr, found, err, extra. cbn [fst snd] in Hshape.
  split; [exact Hrun |]. split; [exact Hextra | exact Hshape].
Qed.

(** X11. Resolving an address that is not an ID address, at the edges.
    Without an init actor the resolution ends with the error of the read:
    undefined address, not found, and the init actor's lookup is not
    called.  With an init actor that has no entry for the address, the
    resolution ends without error: undefined address, not found, nil. *)
Theorem ResolveAddress_unknown_address addr st gt (w : World T S) c :
  cachedTrees w !! st = Some c ->
  address.protocol addr <> address.ID ->
  let init := state.read (base w) c address.InitAddress in
  let answer :=
    LookupIDAddress (lookupContext init.1 st) addr (base w) c (storage w) in
  (init.2 <> nil_error ->
   ResolveAddress addr st gt w
     = Done (Undef, false, init.2)
         (appended [CachedGetActor st address.InitAddress] w)) /\
  (init.2 = nil_error -> answer.2 = nil_error -> answer.1.2 = false ->
   ResolveAddress addr st gt w
     = Done (Undef, false, nil_error)
         (appended [CachedGetActor st address.InitAddress;
                    InitLookupIDAddress (lookupContext init.1 st) addr] w)).
Proof.
  intros Hc HID. cbv zeta. unfold ResolveAddress.
  rewrite bool_decide_eq_false_2 by exact HID.
  rewrite (bind_run _ _ _ _ _ (CachedTree_GetActor_run st address.InitAddress w c Hc)).
  destruct (state.read (base w) c address.InitAddress) as [init err].
  cbn [fst snd]. split.
  - intros Herr. apply notNil_true in Herr. rewrite Herr. reflexivity.
  - intros -> Hanswer Hfound.
    change (notNil nil_error) with false. cbv iota.
    unfold bind, initactor_LookupIDAddress. cbn [lookupContext vm.params vm.State].
    cbn [appended cachedTrees base storage calls]. rewrite Hc.
    destruct (LookupIDAddress (lookupContext init st) addr (base w) c (storage w))
      as [[id found] err'].
    cbn [fst snd] in *. subst err' found.
    change (notNil nil_error) with false. cbv iota. cbn [negb].
    unfold ret, logged, appended.
    cbn [base storage cachedTrees gasTrackers calls].
    rewrite <- app_assoc. reflexivity.
Qed.

(** X12. An actor that exists is not provisioned.  When the resolution
    finds an ID address, getOrCreateActor returns that address with the
    actor record, or the error, that the read through the cached tree
    gives; it changes nothing in the store and only reads: no gas tracker
    is created and the init actor is not called. *)
Theorem getOrCreateActor_of_resolved_address
  st addr gt (w : World T S) c idAddr :
  cachedTrees w !! st = Some c ->
  resolution addr st (base w) c (storage w) = (idAddr, true, nil_error) ->
  exists extra,
    Forall (readCall st) extra /\
    getOrCreateActor st addr gt w
      = Done ((state.read (base w) c idAddr).1, idAddr,
              (state.read (base w) c idAddr).2)
          (appended extra w).
Proof.
  intros Hc Hres. unfold getOrCreateActor.
  destruct (ResolveAddress_run addr st gt w c Hc) as (extra & Hrun & Hextra).
  rewrite (bind_run _ _ _ _ _ Hrun). rewrite Hres.
  change (notNil nil_error) with false. cbv iota.
  rewrite (bind_run _ _ _ _ _
             (CachedTree_GetActor_run st idAddr (appended extra w) c Hc)).
  rewrite appended_appended. cbn [appended base].
  exists (extra ++ [CachedGetActor st idAddr]). split.
  - apply Forall_app. split; [| repeat constructor].
    eapply Forall_impl; [exact Hextra |]. intros x. apply resolveCall_readCall.
  - destruct (state.read (base w) c idAddr). reflexivity.
Qed.

(** X13. getOrCreateActor does not write the base tree.  Whenever the
    cached tree exists it returns; the base tree is as before, so that an
    actor it provisions exists in the cached tree only; no cached tree
    changed but the one it was given, every gas tracker that existed is as
    it was, and neither a commit nor an execution of a message was
    called. *)
Theorem getOrCreateActor_keeps_base_tree st addr gt (w : World T S) c :
  cachedTrees w !! st = Some c ->
  exists r w' extra,
    getOrCreateActor st addr gt w = Done r w' /\
    base w' = base w /\
    (forall i, i <> st -> cachedTrees w' !! i = cachedTrees w !! i) /\
    (forall i gi, gasTrackers w !! i = Some gi -> gasTrackers w' !! i = Some gi) /\
    calls w' = calls w ++ extra /\
    Forall (fun c => ~ writesBase c) extra /\
    (forall ctx gas, VmSend ctx gas ∉ extra).
Proof.
  intros Hc.
  destruct (getOrCreateActor_run st addr gt w c Hc) as (r & w' & Hrun & Hprov).
  destruct Hprov as [Hbase [c' Htrees] [new Hgas] (extra & Hcalls & Hlog)].
  exists r, w', extra.
  split; [exact Hrun |]. split; [exact Hbase |]. split; [| split; [| split; [| split]]].
  - intros i Hi. rewrite Htrees. apply list_lookup_insert_ne. congruence.
  - intros i gi Hgi. rewrite Hgas. apply lookup_app_l_Some. exact Hgi.
  - exact Hcalls.
  - eapply provisioningLog_no_base_write. exact Hlog.
  - intros ctx gas. eapply provisioningLog_no_VmSend. exact Hlog.
Qed.

(** X14. How an unknown address is provisioned.  When the resolution
    finds no ID address and the init actor can be read, getOrCreateActor
    calls the init actor twice under a gas tracker of its own: exec of an
    account actor, whose return value is not looked at, then the lookup
    of the ID, which sees what the exec left behind.  An answer that is
    not an integer is a fault; an integer is turned into an ID address by
    its low 64 bits and the actor is read through the cached tree as the
    two calls left it.  The gas of both calls is recorded by the new
    tracker, which is the only gas tracker added, and the base tree is as
    before. *)
Theorem getOrCreateActor_provisioning st addr gt (w : World T S) c initAct :
  cachedTrees w !! st = Some c ->
  (resolution addr st (base w) c (storage w)).1.2 = false ->
  (resolution addr st (base w) c (storage w)).2 = nil_error ->
  state.read (base w) c address.InitAddress = (initAct, nil_error) ->
  let noopGT := length (gasTrackers w) in
  let r1 := execReply initAct st noopGT addr (base w) c (storage w) in
  let r2 := idReply initAct st noopGT addr (base w) r1 in
  let spent :=
    foldl vm.charge (foldl vm.charge provisioningTracker (vm.r_charges r1))
      (vm.r_charges r2) in
  exists w',
    getOrCreateActor st addr gt w
      = Done
          match vm.r_result r2 with
          | vm.VBigInt id =>
              if notNil (NewIDAddress (vm.Uint64 id)).2 then
                (None, Undef, (NewIDAddress (vm.Uint64 id)).2)
              else
                let idAddr := (NewIDAddress (vm.Uint64 id)).1 in
                let record := state.read (base w) (vm.r_cache r2) idAddr in
                (record.1, idAddr, record.2)
          | _ =>
              (None, Undef,
               errors.NewFaultError "non-integer return from GetActorIDForAddress")
          end w' /\
    base w' = base w /\
    storage w' = vm.r_storage r2 /\
    cachedTrees w' = <[st := vm.r_cache r2]> (cachedTrees w) /\
    gasTrackers w' = gasTrackers w ++ [spent].
Proof.
  intros Hc Hfound Herr Hinit. cbv zeta. unfold getOrCreateActor.
  destruct (ResolveAddress_run addr st gt w c Hc) as (extra & Hrun & _).
  rewrite (bind_run _ _ _ _ _ Hrun).
  destruct (resolution addr st (base w) c (storage w)) as [[idAddr found] err].
  cbn [fst snd] in *. subst found err.
  change (notNil nil_error) with false. cbv iota.
  rewrite (bind_run _ _ _ _ _
             (CachedTree_GetActor_run st address.InitAddress (appended extra w) c Hc)).
  cbn [appended base]. rewrite Hinit.
  change (notNil nil_error) with false. cbv iota.
  rewrite fresh_tracker_run.
  cbn [appended base storage cachedTrees gasTrackers calls].
  pose proof (lookup_lt_Some _ _ _ Hc) as Hlt.
  fold provisioningTracker.
  erewrite bind_run;
    [| eapply (vmctx_Send_run _ _ _ _ _ _ st (length (gasTrackers w)) c
                 provisioningTracker);
       [reflexivity | reflexivity | exact Hc | apply lookup_at_end]].
  cbv zeta. cbn [base storage cachedTrees gasTrackers calls].
  fold (execReply initAct st (length (gasTrackers w)) addr (base w) c (storage w)).
  set (r1 := execReply _ _ _ _ _ _ _).
  erewrite bind_run;
    [| eapply (vmctx_Send_run _ _ _ _ _ _ st (length (gasTrackers w))
                 (vm.r_cache r1)
                 (foldl vm.charge provisioningTracker (vm.r_charges r1)));
       [reflexivity | reflexivity
       | cbn [cachedTrees]; apply list_lookup_insert_eq; exact Hlt
       | cbn [gasTrackers]; rewrite insert_at_end; apply lookup_at_end]].
  cbv zeta. cbn [base storage cachedTrees gasTrackers calls].
  fold (idReply initAct st (length (gasTrackers w)) addr (base w) r1).
  set (r2 := idReply _ _ _ _ _ _).
  rewrite list_insert_insert_eq, !insert_at_end.
  destruct (vm.r_result r2) as [| | | id | |];
    try (eexists; split; [reflexivity |]; repeat split).
  destruct (NewIDAddress (vm.Uint64 id)) as [idAddr0 err0]. cbn [fst snd].
  destruct (notNil err0).
  { eexists. split; [reflexivity |]. repeat split. }
  erewrite bind_run;
    [| eapply (CachedTree_GetActor_run st idAddr0 _ (vm.r_cache r2));
       cbn [cachedTrees]; apply list_lookup_insert_eq; exact Hlt].
  cbn [base]. cbv zeta.
  destruct (state.read (base w) (vm.r_cache r2) idAddr0) as [act err2].
  eexists. split; [reflexivity |]. repeat split.
Qed.

End ResolutionExits.

(** ** The query entry points, further *)

Section QueryExits.

Context {T S : Type} `{!state.Tree T} `{!Collaborators T S}.

(** X15. An error of the resolution of the target is a fault of the
    query: CallQueryMethod returns no value, exit code 1 and a fault that
    wraps the error, which is not a permanent apply error, and the VM is
    not entered. *)
Theorem CallQueryMethod_resolution_error
  p to method params from optBh (w : World T S) :
  let res :=
    resolution to (length (cachedTrees w)) (base w) state.emptyCache (storage w) in
  res.2 <> nil_error ->
  exists w' extra,
    CallQueryMethod p to method params from optBh w
      = Done ([], 1%N,
              errors.FaultErrorWrapf res.2 "Could not resolve actor address") w' /\
    errors.IsFault
      (errors.FaultErrorWrapf res.2 "Could not resolve actor address") = true /\
    errors.IsApplyErrorPermanent
      (errors.FaultErrorWrapf res.2 "Could not resolve actor address") = false /\
    calls w' = calls w ++ extra /\
    Forall (fun c => ~ entersVM c) extra.
Proof.
  cbv zeta. intros Herr.
  destruct (CallQueryMethod_run p to method params from optBh w)
    as (r & w' & extra & c & g & Hrun & _ & _ & _ & _ & Hcalls & _ & Hfault & _).
  destruct (Hfault Herr) as [-> Hnovm].
  exists w', extra. repeat split; assumption.
Qed.

(** X16. A query of an actor that exists returns what the VM returns.
    When the target resolves and its actor record is read from the base
    tree without error, CallQueryMethod executes once, with that record as
    the receiver, no sender, a message with sequence number, value, gas
    price and gas limit zero, a cached tree with nothing buffered and a
    gas tracker whose limit is the block gas limit; the return values, the
    exit code and the error of the VM are returned as they are. *)
Theorem CallQueryMethod_returns_vm_outcome
  p to method params from optBh (w : World T S) toAddr toActor :
  let st := length (cachedTrees w) in
  let gt := length (gasTrackers w) in
  resolution to st (base w) state.emptyCache (storage w)
    = (toAddr, true, nil_error) ->
  state.GetActor (base w) toAddr = (toActor, nil_error) ->
  let msg := queryMessage to method params from in
  let ctx := queryContext p toActor toAddr msg st gt optBh in
  let r := Send ctx (queryView w) in
  exists w' extra,
    CallQueryMethod p to method params from optBh w = Done (vm.r_result r) w' /\
    base w' = base w /\
    storage w' = vm.r_storage r /\
    cachedTrees w' = cachedTrees w ++ [vm.r_cache r] /\
    calls w' = calls w ++ extra ++ [VmSend ctx (vm.v_gas (queryView w))] /\
    Forall (fun c => ~ entersVM c) extra /\
    types.CallSeqNum msg = 0%N /\ types.Value msg = 0 /\
    types.GasPrice msg = 0 /\ types.GasLimit msg = 0%N.
Proof.
  cbv zeta. set (st := length (cachedTrees w)). intros Hres Hactor.
  unfold CallQueryMethod.
  unfold bind at 1. unfold NewCachedTree.
  rewrite fresh_tracker_run. cbn [base storage cachedTrees gasTrackers calls].
  fold st.
  set (g0 := vm.withMsgGasLimit BlockGasLimit vm.zeroGasTracker).
  assert ((cachedTrees w ++ [state.emptyCache]) !! st = Some state.emptyCache)
    as Hst by apply lookup_at_end.
  match goal with
  | |- context [bind _ _ ?w1] =>
      destruct (ResolveAddress_run to st (length (gasTrackers w)) w1 _ Hst)
        as (extra & Hrun & Hextra)
  end.
  cbn [queryMessage types.To].
  rewrite (bind_run _ _ _ _ _ Hrun). cbn [base storage]. rewrite Hres.
  change (notNil nil_error) with false. cbv iota. cbn [negb].
  unfold bind at 1. unfold Tree_GetActor, logged, appended.
  cbn [base storage cachedTrees gasTrackers calls]. rewrite Hactor.
  change (notNil nil_error) with false. cbv iota.
  erewrite (vm_Send_run _ _ st (length (gasTrackers w)) state.emptyCache g0);
    [| reflexivity | reflexivity | exact Hst | apply lookup_at_end].
  cbv zeta. cbn [base storage cachedTrees gasTrackers calls].
  fold (queryMessage to method params from).
  fold (queryView w).
  eexists _, (extra ++ [TreeGetActor toAddr]).
  split; [reflexivity |]. cbn [base storage cachedTrees gasTrackers calls].
  unfold st. rewrite insert_at_end, <- !app_assoc.
  repeat split.
  apply Forall_app. split.
  - eapply Forall_impl; [exact Hextra |]. intros []; simpl; tauto.
  - repeat constructor. simpl. tauto.
Qed.


End QueryExits.

(** ** The tip-set entry point and the owner of a miner *)

Section TipSetAndMiner.

Context {T S : Type} `{!state.Tree T} `{!Collaborators T S}.

(** X18. For a tip-set that has a height, ProcessTipSet constructs a VM
    and hands it the messages with that height as epoch, once; what the
    VM returns, receipts and error, is returned as it is: the error is not
    wrapped or turned into a fault, and receipts that come with an error
    are not dropped. *)
Theorem ProcessTipSet_with_height p ts msgs (w : World T S) h :
  block.TipSet_Height ts = (h, nil_error) ->
  let outcome := ApplyTipSetMessages msgs h (base w) (storage w) in
  exists w',
    ProcessTipSet p ts msgs w = Done (outcome.1.1.1, outcome.1.1.2) w' /\
    base w' = outcome.1.2 /\
    storage w' = outcome.2 /\
    calls w' = calls w ++ [VmNewVM; VmApplyTipSetMessages msgs h] /\
    cachedTrees w' = cachedTrees w /\
    gasTrackers w' = gasTrackers w.
Proof.
  intros Hheight. cbv zeta. unfold ProcessTipSet. rewrite Hheight.
  change (notNil nil_error) with false. cbv iota.
  unfold bind, NewVM, log, vm_ApplyTipSetMessages, types.NewBlockHeight.
  cbn [logged base storage cachedTrees gasTrackers calls].
  destruct (ApplyTipSetMessages msgs h (base w) (storage w))
    as [[[results err] t] s].
  eexists. split; [reflexivity |].
  cbn [base storage cachedTrees gasTrackers calls fst snd].
  rewrite <- app_assoc. repeat split.
Qed.

Context `{!MinerCollaborators}.

Lemma minerOwnerAddress_run p minerAddr (w : World T S) ret_ code err w' :
  CallQueryMethod p minerAddr GetOwner [] Undef (Some (types.NewBlockHeight 0)) w
    = Done (ret_, code, err) w' ->
  minerOwnerAddress p minerAddr w
    = if notNil err then
        Done (Undef, errors.FaultErrorWrap err "could not get miner owner") w'
      else if negb (code =? 0)%N then Done (Undef, errMinerOwnerCode code) w'
      else
        match ret_ with
        | [] => Panic
        | owner :: _ => Done (NewFromBytes owner) w'
        end.
Proof.
  intros Hrun. unfold minerOwnerAddress.
  rewrite (bind_run _ _ _ _ _ Hrun).
  destruct (notNil err); [reflexivity |].
  destruct (negb (code =? 0)%N); [reflexivity |].
  destruct ret_; reflexivity.
Qed.

(** X19. The owner of a miner that does not exist is a fault.  When the
    resolution of the miner's address finds no ID address, or the resolved
    address has no actor record in the tree, minerOwnerAddress returns the
    undefined address and a fault; the fault wraps the permanent apply
    error of the query, so that what the query reports as a rejection
    reaches the caller as a fault.  The VM is not entered and the base
    tree is as before. *)
Theorem minerOwnerAddress_of_absent_miner p minerAddr (w : World T S) :
  let res :=
    resolution minerAddr (length (cachedTrees w)) (base w) state.emptyCache
      (storage w) in
  let lookup := state.GetActor (base w) res.1.1 in
  res.2 = nil_error ->
  res.1.2 = false \/ (res.1.2 = true /\ lookup.2 <> nil_error) ->
  exists cause w' extra,
    minerOwnerAddress p minerAddr w
      = Done (Undef, errors.FaultErrorWrap cause "could not get miner owner") w' /\
    errors.IsApplyErrorPermanent cause = true /\
    errors.IsFault (errors.FaultErrorWrap cause "could not get miner owner")
      = true /\
    base w' = base w /\
    calls w' = calls w ++ extra /\
    Forall (fun c => ~ entersVM c) extra.
Proof.
  cbv zeta. intros Hnil Habsent.
  destruct (CallQueryMethod_run p minerAddr GetOwner [] Undef
              (Some (types.NewBlockHeight 0)) w)
    as (r & w' & extra & c & g & Hrun & Hbase & _ & _ & _ & Hcalls & _ & _
        & Hunresolved & Hnorecord).
  cbv zeta in Hunresolved, Hnorecord.
  assert (exists cause,
            r = ([], 1%N, cause) /\ errors.IsApplyErrorPermanent cause = true /\
            Forall (fun c => ~ entersVM c) extra) as (cause & -> & Hperm & Hnovm).
  { destruct Habsent as [Hnotfound | [Hfound Hlookup]].
    - destruct (Hunresolved Hnil Hnotfound) as [-> Hnovm].
      eexists. split; [reflexivity |]. split; [reflexivity | exact Hnovm].
    - destruct (Hnorecord Hnil Hfound Hlookup) as [-> Hnovm].
      eexists. split; [reflexivity |]. split; [reflexivity | exact Hnovm]. }
  exists cause, w', extra.
  rewrite (minerOwnerAddress_run _ _ _ _ _ _ _ Hrun).
  assert (notNil cause = true) as ->
    by (apply notNil_true; destruct cause; discriminate).
  repeat split; assumption.
Qed.

(** X20. minerOwnerAddress and the outcome of its query.  The query asks
    the miner for its owner with no parameters, no sender and height 0.
    An error of the query is wrapped in a fault; without error, an exit
    code other than 0 is a fault that names the code.  Otherwise the
    owner is decoded from the first return value and the others are
    ignored; when the query returned no value at all, indexing the first
    one panics. *)
Theorem minerOwnerAddress_outcome p minerAddr (w : World T S) ret_ code err w' :
  CallQueryMethod p minerAddr GetOwner [] Undef (Some 0%N) w
    = Done (ret_, code, err) w' ->
  (err <> nil_error ->
   minerOwnerAddress p minerAddr w
     = Done (Undef, errors.FaultErrorWrap err "could not get miner owner") w') /\
  (err = nil_error -> code <> 0%N ->
   minerOwnerAddress p minerAddr w = Done (Undef, errMinerOwnerCode code) w' /\
   errors.IsFault (errMinerOwnerCode code) = true) /\
  (err = nil_error -> code = 0%N ->
   forall owner others, ret_ = owner :: others ->
   minerOwnerAddress p minerAddr w = Done (NewFromBytes owner) w') /\
  (err = nil_error -> code = 0%N -> ret_ = [] ->
   minerOwnerAddress p minerAddr w = Panic).
Proof.
  intros Hrun.
  rewrite (minerOwnerAddress_run _ _ _ _ _ _ _ Hrun).
  split; [| split; [| split]].
  - intros Herr. apply notNil_true in Herr. rewrite Herr. reflexivity.
  - intros -> Hcode. change (notNil nil_error) with false. cbv iota.
    apply N.eqb_neq in Hcode. rewrite Hcode. split; reflexivity.
  - intros -> -> owner others ->. reflexivity.
  - intros -> -> ->. reflexivity.
Qed.

(** X21. minerOwnerAddress does not write the base tree: whenever it
    returns, the base tree is as before, the cached trees and gas
    trackers that existed are as they were, and neither a commit nor the
    application of a tip-set was called. *)
Theorem minerOwnerAddress_keeps_base_tree p minerAddr (w : World T S) r w' :
  minerOwnerAddress p minerAddr w = Done r w' ->
  base w' = base w /\
  (exists c, cachedTrees w' = cachedTrees w ++ [c]) /\
  (exists g, gasTrackers w' = gasTrackers w ++ [g]) /\
  exists extra,
    calls w' = calls w ++ extra /\ Forall (fun c => ~ writesBase c) extra.
Proof.
  intros Hminer.
  destruct (CallQueryMethod_run p minerAddr GetOwner [] Undef
              (Some (types.NewBlockHeight 0)) w)
    as ([[ret_ code] err] & w2 & extra & c & g & Hrun & Hbase & Htrees & Hgas
        & _ & Hcalls & Hq & _).
  rewrite (minerOwnerAddress_run _ _ _ _ _ _ _ Hrun) in Hminer.
  assert (w' = w2) as ->.
  { destruct (notNil err); [congruence |].
    destruct (negb (code =? 0)%N); [congruence |].
    destruct ret_; [discriminate | congruence]. }
  split; [exact Hbase |]. split; [eauto |]. split; [eauto |].
  exists extra. split; [exact Hcalls |].
  eapply Forall_impl; [exact Hq |]. intros []; simpl; tauto.
Qed.

End TipSetAndMiner.

(** ** The further properties on the nodes held in memory *)

(** On the node that fails, the VM faults on a transfer. *)
Lemma faulty_transfer_has_no_receipt :
  exists receipt err w',
    attemptApplyMessage example.processor example.st (example.transfer 5 1000)
        example.height example.gt [] faulty.world
      = Done (receipt, err) w' /\
    (receipt = None -> errors.IsFault err = true).
Proof.
  exact (attemptApplyMessage_no_receipt_only_with_fault example.processor
           example.st (example.transfer 5 1000) example.height example.gt []
           faulty.world state.emptyCache (example.tracker 0) eq_refl eq_refl).
Defined.

(** The run behind it. *)
Example faulty_transfer_run :
  exists w',
    attemptApplyMessage example.processor example.st (example.transfer 5 1000)
        example.height example.gt [] faulty.world
      = Done (None, faulty.vmFault) w' /\
    gasTrackers w' !! example.gt
      = Some {| vm.MsgGasLimit := 1000%N; vm.gasConsumedByBlock := 0%N;
                vm.gasConsumedByMessage := 3%N |}.
Proof. eexists. split; vm_compute; reflexivity. Qed.

Lemma transfer_is_confined :
  exists r w' g',
    attemptApplyMessage example.processor example.st (example.transfer 5 1000)
        example.height example.gt [] (example.world 0)
      = Done r w' /\
    confined example.st example.gt (example.world 0) w' /\
    gasTrackers w' !! example.gt = Some g' /\
    vm.MsgGasLimit g' = types.GasLimit (example.transfer 5 1000).
Proof.
  exact (attemptApplyMessage_confined example.processor example.st
           (example.transfer 5 1000) example.height example.gt []
           (example.world 0) state.emptyCache (example.tracker 0)
           eq_refl eq_refl).
Defined.




Lemma faulty_provisioning_stops_the_gift :
  exists w2,
    execute example.processor example.st giftMessage example.height example.gt
        [] (Some (example.account 5 1000)) faulty.world
      = Done (None,
              errors.FaultErrorWrap
                (errors.NewFaultError "non-integer return from GetActorIDForAddress")
                "failed to get To actor") w2 /\
    forall ctx gas, VmSend ctx gas ∉ drop (length (calls faulty.world)) (calls w2).
Proof.
  eexists.
  refine ((fun H => conj (proj1 H) (proj2 (proj2 H)))
            (execute_receiver_failure example.processor example.st giftMessage
               example.height example.gt [] (Some (example.account 5 1000))
               faulty.world state.emptyCache (example.tracker 0)
               None Undef
               (errors.NewFaultError "non-integer return from GetActorIDForAddress")
               _ eq_refl eq_refl _ _)).
  - vm_compute. reflexivity.
  - discriminate.
Defined.

Lemma transfer_outcome_is_the_vm_outcome :
  exists r w3,
    execute example.processor example.st (example.transfer 5 1000)
        example.height example.gt [] (Some (example.account 5 1000))
        (afterReset example.gt (example.transfer 5 1000) (example.tracker 0)
           (example.world 0))
      = Done r w3 /\
    r = (Some {| types.ExitCode := 0%N; types.Return := [];
                 types.GasAttoFIL := 36 |}, nil_error).
Proof.
  eexists _, _. split.
  - eapply (execute_vm_outcome example.processor example.st
              (example.transfer 5 1000) example.height example.gt []
              (Some (example.account 5 1000)) _ state.emptyCache
              (vm.reset (example.transfer 5 1000) (example.tracker 0))
              (Some (example.account 0 0)) (IDAddr 101) _ state.emptyCache).
    + reflexivity.
    + reflexivity.
    + vm_compute. reflexivity.
    + reflexivity.
  - vm_compute. reflexivity.
Defined.

Lemma known_key_is_only_read :
  exists idAddr found err extra,
    ResolveAddress knownKey example.st example.gt knownWorld
      = Done (idAddr, found, err) (appended extra knownWorld) /\
    Forall (resolveCall example.st knownKey) extra /\
    (found = true -> err = nil_error) /\
    (found = false -> idAddr = Undef).
Proof.
  exact (ResolveAddress_only_reads knownKey example.st example.gt knownWorld
           state.emptyCache eq_refl).
Defined.

(** The run behind it: the key resolves to the account at 100. *)
Example known_key_resolves :
  ResolveAddress knownKey example.st example.gt knownWorld
    = Done (IDAddr 100, true, nil_error)
        (appended [CachedGetActor example.st address.InitAddress;
                   InitLookupIDAddress
                     (lookupContext (Some example.initActor) example.st)
                     knownKey] knownWorld).
Proof. vm_compute. reflexivity. Qed.

Lemma unknown_key_at_the_edges :
  (exists err,
     ResolveAddress example.unknownKey example.st example.gt bareWorld
       = Done (Undef, false, err)
           (appended [CachedGetActor example.st address.InitAddress] bareWorld) /\
     err <> nil_error) /\
  ResolveAddress example.unknownKey example.st example.gt (example.world 0)
    = Done (Undef, false, nil_error)
        (appended [CachedGetActor example.st address.InitAddress;
                   InitLookupIDAddress
                     (lookupContext (Some example.initActor) example.st)
                     example.unknownKey] (example.world 0)).
Proof.
  split.
  - eexists. split.
    + refine (proj1 (ResolveAddress_unknown_address example.unknownKey
                       example.st example.gt bareWorld state.emptyCache
                       eq_refl _) _).
      * discriminate.
      * vm_compute. discriminate.
    + vm_compute. discriminate.
  - refine (proj2 (ResolveAddress_unknown_address example.unknownKey
                     example.st example.gt (example.world 0) state.emptyCache
                     eq_refl _) eq_refl eq_refl eq_refl).
    discriminate.
Defined.

Lemma account_is_not_provisioned :
  exists extra,
    Forall (readCall example.st) extra /\
    getOrCreateActor example.st (IDAddr 101) example.gt (example.world 0)
      = Done (Some (example.account 0 0), IDAddr 101, nil_error)
          (appended extra (example.world 0)).
Proof.
  exact (getOrCreateActor_of_resolved_address example.st (IDAddr 101)
           example.gt (example.world 0) state.emptyCache (IDAddr 101)
           eq_refl eq_refl).
Defined.

Lemma provisioned_key_is_not_in_base_tree :
  exists r w' extra,
    getOrCreateActor example.st example.unknownKey example.gt (example.world 0)
      = Done r w' /\
    base w' = base (example.world 0) /\
    (forall i, i <> example.st ->
       cachedTrees w' !! i = cachedTrees (example.world 0) !! i) /\
    (forall i gi, gasTrackers (example.world 0) !! i = Some gi ->
       gasTrackers w' !! i = Some gi) /\
    calls w' = calls (example.world 0) ++ extra /\
    Forall (fun c => ~ writesBase c) extra /\
    (forall ctx gas, VmSend ctx gas ∉ extra).
Proof.
  exact (getOrCreateActor_keeps_base_tree example.st example.unknownKey
           example.gt (example.world 0) state.emptyCache eq_refl).
Defined.

Lemma unknown_key_is_provisioned_at_1000 :
  exists w',
    getOrCreateActor example.st example.unknownKey example.gt (example.world 0)
      = Done (Some (example.account 0 0), IDAddr 1000, nil_error) w' /\
    base w' = base (example.world 0) /\
    gasTrackers w'
      = [example.tracker 0;
         {| vm.MsgGasLimit := 10000%N; vm.gasConsumedByBlock := 0%N;
            vm.gasConsumedByMessage := 1600%N |}].
Proof.
  destruct (getOrCreateActor_provisioning example.st example.unknownKey
              example.gt (example.world 0) state.emptyCache
              (Some example.initActor) eq_refl)
    as (w' & Hrun & Hbase & _ & _ & Hgas).
  - vm_compute. reflexivity.
  - vm_compute. reflexivity.
  - vm_compute. reflexivity.
  - exists w'. split; [rewrite Hrun; vm_compute; reflexivity |].
    split; [exact Hbase | rewrite Hgas; vm_compute; reflexivity].
Defined.

Lemma query_without_init_actor_is_a_fault :
  exists cause w',
    CallQueryMethod example.processor example.unknownKey 0%N [] Undef
        example.height bareWorld
      = Done ([], 1%N,
              errors.FaultErrorWrapf cause "Could not resolve actor address") w' /\
    errors.IsFault
      (errors.FaultErrorWrapf cause "Could not resolve actor address") = true.
Proof.
  destruct (CallQueryMethod_resolution_error example.processor
              example.unknownKey 0%N [] Undef example.height bareWorld)
    as (w' & extra & Hrun & Hfault & _).
  - vm_compute. discriminate.
  - eexists _, w'. split; [exact Hrun | exact Hfault].
Defined.

Lemma query_of_account_returns_vm_outcome :
  exists w',
    CallQueryMethod example.processor (IDAddr 101) 0%N [] Undef example.height
        (example.world 0)
      = Done ([], 0%N, nil_error) w' /\
    base w' = base (example.world 0).
Proof.
  destruct (CallQueryMethod_returns_vm_outcome example.processor (IDAddr 101)
              0%N [] Undef example.height (example.world 0) (IDAddr 101)
              (Some (example.account 0 0)))
    as (w' & extra & Hrun & Hbase & _).
  - reflexivity.
  - vm_compute. reflexivity.
  - exists w'. split; [exact Hrun | exact Hbase].
Defined.

Lemma tipset_at_three_is_handed_to_the_vm :
  exists w',
    ProcessTipSet example.processor tipsetAtThree [] (example.world 0)
      = Done ((ApplyTipSetMessages [] 3%N (base (example.world 0))
                 (storage (example.world 0))).1.1.1,
              (ApplyTipSetMessages [] 3%N (base (example.world 0))
                 (storage (example.world 0))).1.1.2) w' /\
    calls w'
      = calls (example.world 0) ++ [VmNewVM; VmApplyTipSetMessages [] 3%N].
Proof.
  destruct (ProcessTipSet_with_height example.processor tipsetAtThree []
              (example.world 0) 3%N eq_refl)
    as (w' & Hrun & _ & _ & Hcalls & _).
  exists w'. split; [exact Hrun | exact Hcalls].
Defined.

(** On the node that fails, the receipts come back together with the
    error of the VM. *)
Example faulty_tipset_keeps_receipts :
  exists w',
    ProcessTipSet example.processor tipsetAtThree [] faulty.world
      = Done ([faulty.receipt], errors.Revert "conflict") w'.
Proof. eexists. vm_compute. reflexivity. Qed.

Lemma owner_of_unknown_key_is_a_fault :
  exists cause w',
    minerOwnerAddress example.processor example.unknownKey (example.world 0)
      = Done (Undef, errors.FaultErrorWrap cause "could not get miner owner") w' /\
    errors.IsApplyErrorPermanent cause = true /\
    base w' = base (example.world 0).
Proof.
  destruct (minerOwnerAddress_of_absent_miner example.processor
              example.unknownKey (example.world 0))
    as (cause & w' & extra & Hrun & Hperm & _ & Hbase & _).
  - vm_compute. reflexivity.
  - left. vm_compute. reflexivity.
  - exists cause, w'. split; [exact Hrun |]. split; [exact Hperm | exact Hbase].
Defined.

(** The account at 101 answers the query with no value and exit code 0:
    the first return value does not exist. *)
Lemma owner_of_account_panics :
  minerOwnerAddress example.processor (IDAddr 101) (example.world 0) = Panic.
Proof.
  refine (proj2 (proj2 (proj2
            (minerOwnerAddress_outcome example.processor (IDAddr 101)
               (example.world 0) [] 0%N nil_error _ _)))
            eq_refl eq_refl eq_refl).
  vm_compute. reflexivity.
Defined.

Lemma owner_query_keeps_base_tree :
  exists w' : World example.Tree example.Storage,
    base w' = base (example.world 0) /\
    (exists c, cachedTrees w' = cachedTrees (example.world 0) ++ [c]) /\
    (exists g, gasTrackers w' = gasTrackers (example.world 0) ++ [g]) /\
    exists extra,
      calls w' = calls (example.world 0) ++ extra /\
      Forall (fun c => ~ writesBase c) extra.
Proof.
  eexists.
  eapply (minerOwnerAddress_keeps_base_tree example.processor
            example.unknownKey (example.world 0)).
  vm_compute. reflexivity.
Defined.
